(** * JobSearch: the search, ranking, paging, saving and applying logic of the
    job-tracker front end (the [JobSearch] page component).

    The component is a React function component: a tuple of state cells
    ([useState]), values derived from them on every render ([useMemo]) and
    event handlers that write the cells and call out to the toast library, the
    query hook and the mutation hook.  It is embedded here as

    - the pieces of the ECMAScript library the component calls
      ([Array.prototype.sort], [Array.prototype.slice], [String.prototype.trim],
      [Math.ceil], [||] on optional values), module [JS];
    - the [Job] record;
    - the derived values [sortedJobs], [paginatedJobs], [totalPages];
    - the state record, the handlers as straight-line lists of operations,
      and their execution. *)

From Stdlib Require Import QArith Qround ZArith Lia Lqa.
From Stdlib Require Import Sorting.Sorted Sorting.Permutation.
From stdpp Require Import gmap strings list pretty.

Local Open Scope Z_scope.

(* ===================================================================== *)
(** * ECMAScript library functions used by the component                  *)
(* ===================================================================== *)

Module JS.

(** A finite [number].  The numbers reaching the component come out of a JSON
    response, so they are finite doubles; the component only subtracts two of
    them and looks at the sign of the difference inside [sort].  The rounded
    difference of two finite doubles has the sign of the exact difference, so
    rationals with exact subtraction give the same comparisons. *)
Definition number : Type := Q.

(** [x || 0] for an optional number [x]: [undefined], [null] and [0] are falsy. *)
Definition num_or (x : option number) (d : number) : number :=
  match x with
  | Some q => if Qeq_bool q 0 then d else q
  | None => d
  end.

(** [x || d] for an optional string [x]: [undefined], [null] and the empty
    string are falsy. *)
Definition str_or (x : option string) (d : string) : string :=
  match x with
  | Some s => if decide (s = "") then d else s
  | None => d
  end.

(** ** [Array.prototype.sort]

    [comparefn x y] is the number the comparison function returns, [None]
    standing for [NaN].  The sort reads it through [SortCompare], which turns
    [NaN] into [+0].  ECMAScript (2019 and later) requires the sort to be
    stable, and for a comparison function that is consistent on the elements
    of the array the sorted order together with stability fixes the result
    (lemma [sort_determined] below); the stable insertion sort given here
    computes it.  For an inconsistent comparison function the order is
    implementation-defined, and the statements about order below assume a
    comparison function that is the difference of a key. *)
Section Sort.
Context {A : Type}.
Variable comparefn : A -> A -> option number.

Definition SortCompare (x y : A) : number :=
  match comparefn x y with
  | Some v => v
  | None => 0%Q
  end.

(** [x] comes from the left of every element of [l] in the original array;
    it moves right only past elements that must precede it. *)
Fixpoint insert (x : A) (l : list A) : list A :=
  match l with
  | [] => [x]
  | y :: l' =>
      match (0 ?= SortCompare x y)%Q with
      | Lt => y :: insert x l'
      | _ => x :: l
      end
  end.

Definition sort (l : list A) : list A := foldr insert [] l.
End Sort.

(** ** [Array.prototype.slice(start, end)] with its relative-index rules. *)
Definition slice {A : Type} (l : list A) (start end_ : Z) : list A :=
  let len := Z.of_nat (length l) in
  let k := if start <? 0 then Z.max (len + start) 0 else Z.min start len in
  let final := if end_ <? 0 then Z.max (len + end_) 0 else Z.min end_ len in
  take (Z.to_nat (final - k)) (drop (Z.to_nat k) l).

(** ** [Math.ceil] on a finite number. *)
Definition Math_ceil (x : number) : Z := Qceiling x.

(** ** [String.prototype.trim]

    [trim] looks into the string, so the string is taken as what ECMAScript
    says it is: a sequence of UTF-16 code units, each a number below 65536.
    The code units removed are the [WhiteSpace] and [LineTerminator] code
    points: TAB, LF, VT, FF, CR, SP, NBSP, U+1680, U+2000 to U+200A, U+2028,
    U+2029, U+202F, U+205F, U+3000 and U+FEFF. *)
Definition isWhiteSpace (c : N) : bool :=
  ((9 <=? c) && (c <=? 13) || (c =? 32) || (c =? 160) || (c =? 5760)
   || (8192 <=? c) && (c <=? 8202) || (c =? 8232) || (c =? 8233)
   || (c =? 8239) || (c =? 8287) || (c =? 12288) || (c =? 65279))%N.

Fixpoint trimStart (s : list N) : list N :=
  match s with
  | [] => []
  | c :: s' => if isWhiteSpace c then trimStart s' else s
  end.

Definition trimEnd (s : list N) : list N := rev (trimStart (rev s)).

Definition trim (s : list N) : list N := trimEnd (trimStart s).

(** The code units of a literal of ASCII characters. *)
Definition units (s : string) : list N :=
  Ascii.N_of_ascii <$> String.list_ascii_of_string s.

End JS.

(* ===================================================================== *)
(** * The [Job] interface                                                 *)
(* ===================================================================== *)

Module Job.
Record t : Type := mk {
  _id : string;
  title : string;
  company : string;
  location : string;
  job_type : string;
  description : string;
  salary_min : option JS.number;
  salary_max : option JS.number;
  url : string;
  source : string;
  match_score : option JS.number;
  posted_date : option string;
}.
End Job.

Abbreviation Job := Job.t.

(** The [sortBy] state cell: ['relevance' | 'salary' | 'date']. *)
Inductive SortBy : Type := relevance | salary | date.

Definition itemsPerPage : Z := 10.

(* ===================================================================== *)
(** * Derived values: [sortedJobs], [paginatedJobs], [totalPages]         *)
(* ===================================================================== *)

Section Derived.
(** [dateTime s] is the time value (milliseconds since the epoch, UTC) of
    [new Date(s)] for a non-empty string [s]; [None] is the [NaN] of an
    invalid date.  [Date] parsing belongs to the host, so it is a parameter
    of the development. *)
Variable dateTime : string -> option Z.

(** [new Date(d || 0).getTime()]: a missing or empty date string gives
    [new Date(0)], whose time value is [0]. *)
Definition getTime (d : option string) : option Z :=
  match d with
  | Some s => if decide (s = "") then Some 0 else dateTime s
  | None => Some 0
  end.

(** [(a, b) => (b.salary_max || 0) - (a.salary_max || 0)] *)
Definition bySalary (a b : Job) : option JS.number :=
  Some (JS.num_or (Job.salary_max b) 0 - JS.num_or (Job.salary_max a) 0)%Q.

(** [(a, b) => new Date(b.posted_date || 0).getTime()
               - new Date(a.posted_date || 0).getTime()] *)
Definition byDate (a b : Job) : option JS.number :=
  match getTime (Job.posted_date b), getTime (Job.posted_date a) with
  | Some tb, Some ta => Some (inject_Z tb - inject_Z ta)%Q
  | _, _ => None
  end.

(** [(a, b) => (b.match_score || 0) - (a.match_score || 0)] *)
Definition byRelevance (a b : Job) : option JS.number :=
  Some (JS.num_or (Job.match_score b) 0 - JS.num_or (Job.match_score a) 0)%Q.

(** [sortedJobs]: a copy of [jobs], sorted by the comparison function the
    sort mode selects. *)
Definition sortedJobs (jobs : list Job) (sortBy : SortBy) : list Job :=
  let sorted := jobs in
  match sortBy with
  | salary => JS.sort bySalary sorted
  | date => JS.sort byDate sorted
  | relevance => JS.sort byRelevance sorted
  end.

(** [paginatedJobs]: the slice of the sorted list that the current page
    shows. *)
Definition paginatedJobs (sorted : list Job) (currentPage : Z) : list Job :=
  let start := (currentPage - 1) * itemsPerPage in
  JS.slice sorted start (start + itemsPerPage).

(** [totalPages = Math.ceil(sortedJobs.length / itemsPerPage)] *)
Definition totalPages (sorted : list Job) : Z :=
  JS.Math_ceil (inject_Z (Z.of_nat (length sorted)) / inject_Z itemsPerPage)%Q.

(** [Array.from({ length: totalPages }, (_, i) => i + 1)]: the page buttons. *)
Definition pageButtons (sorted : list Job) : list Z :=
  (fun i : nat => Z.of_nat i + 1) <$> seq 0 (Z.to_nat (totalPages sorted)).
End Derived.

(** ** The arrays behind [sortedJobs]

    JavaScript arrays are objects: [sort] reorders the array it is called on
    and returns that same array.  [sortedJobs] therefore first copies [jobs]
    with [[...jobs]] and sorts the copy.  The functions below follow the
    arrays by reference, in a store from references to array contents, so
    that what happens to the array the query cache owns is visible. *)
Section Arrays.
Variable dateTime : string -> option Z.

(** [[...a]]: a new array with the elements of [a]. *)
Definition spread (h : gmap positive (list Job)) (a : positive)
  : positive * gmap positive (list Job) :=
  let r := fresh (dom h) in
  (r, <[r := default [] (h !! a)]> h).

(** [a.sort(comparefn)]: sorts the array behind [a] in place. *)
Definition sort_in_place (comparefn : Job -> Job -> option JS.number)
    (h : gmap positive (list Job)) (a : positive)
  : gmap positive (list Job) :=
  alter (JS.sort comparefn) a h.

(** [sortedJobs] on references: the reference it returns and the store it
    leaves. *)
Definition sortedJobs_arrays (h : gmap positive (list Job)) (jobs : positive)
    (sortBy : SortBy) : positive * gmap positive (list Job) :=
  let '(sorted, h) := spread h jobs in
  let h :=
    match sortBy with
    | salary => sort_in_place bySalary h sorted
    | date => sort_in_place (byDate dateTime) h sorted
    | relevance => sort_in_place byRelevance h sorted
    end in
  (sorted, h).
End Arrays.


(* ===================================================================== *)
(** * Component state, operations and handlers                            *)
(* ===================================================================== *)

(** The state cells of [JobSearch] (one field per [useState]), together with
    [jobs], the data the query hook currently returns
    ([result?.data?.jobs || []]).  The in-flight flags of the hooks
    ([isLoading], [isPending]) are not part of the record.  [keywords] is the
    one string the component looks into (with [trim]) and is kept as its code
    units; the other strings are only stored, compared and passed on. *)
Record State : Type := mkState {
  keywords : list N;
  location : string;
  jobType : string;
  minSalary : string;
  maxSalary : string;
  hasSearched : bool;
  currentPage : Z;
  sortBy : SortBy;
  savedJobs : gset string;
  applyingJobId : option string;
  showApplyModal : bool;
  applyNotes : string;
  jobs : list Job;
}.

(** The state of the first render: the arguments of the [useState] calls, and
    no query data. *)
Definition initialState : State :=
  {| keywords := []; location := ""; jobType := ""; minSalary := "";
     maxSalary := ""; hasSearched := false; currentPage := 1;
     sortBy := relevance; savedJobs := ∅; applyingJobId := None;
     showApplyModal := false; applyNotes := ""; jobs := [] |}.

(** The argument of [createApplicationMutation.mutate] / [apiClient.createApplication]. *)
Record ApplicationData : Type := mkApplicationData {
  job_id : string;
  status : option string;
  notes : option string;
  tags : option (list string);
}.

(** The error a rejected mutation hands to [onError] ([error: any], read only
    through [error.message]). *)
Record Error : Type := mkError { message : option string }.

(** What a handler does, one constructor per kind of statement: the state
    setters, and the calls that leave the component. *)
Inductive Op : Type :=
  | setKeywords (v : list N)
  | setLocation (v : string)
  | setJobType (v : string)
  | setMinSalary (v : string)
  | setMaxSalary (v : string)
  | setHasSearched (v : bool)
  | setCurrentPage (v : Z)
  | setSortBy (v : SortBy)
  | setSavedJobs (v : gset string)
  | setApplyingJobId (v : option string)
  | setShowApplyModal (v : bool)
  | setApplyNotes (v : string)
  | preventDefault
  | toast_error (msg : string)
  | toast_success (msg : string)
  | refetch
  | mutate (data : ApplicationData)
  | invalidateQueries (queryKey : list string).

(** The effect of one operation on the state cells; calls that leave the
    component do not touch them. *)
Definition exec (st : State) (op : Op) : State :=
  match op with
  | setKeywords v =>
      mkState v (location st) (jobType st) (minSalary st) (maxSalary st)
        (hasSearched st) (currentPage st) (sortBy st) (savedJobs st)
        (applyingJobId st) (showApplyModal st) (applyNotes st) (jobs st)
  | setLocation v =>
      mkState (keywords st) v (jobType st) (minSalary st) (maxSalary st)
        (hasSearched st) (currentPage st) (sortBy st) (savedJobs st)
        (applyingJobId st) (showApplyModal st) (applyNotes st) (jobs st)
  | setJobType v =>
      mkState (keywords st) (location st) v (minSalary st) (maxSalary st)
        (hasSearched st) (currentPage st) (sortBy st) (savedJobs st)
        (applyingJobId st) (showApplyModal st) (applyNotes st) (jobs st)
  | setMinSalary v =>
      mkState (keywords st) (location st) (jobType st) v (maxSalary st)
        (hasSearched st) (currentPage st) (sortBy st) (savedJobs st)
        (applyingJobId st) (showApplyModal st) (applyNotes st) (jobs st)
  | setMaxSalary v =>
      mkState (keywords st) (location st) (jobType st) (minSalary st) v
        (hasSearched st) (currentPage st) (sortBy st) (savedJobs st)
        (applyingJobId st) (showApplyModal st) (applyNotes st) (jobs st)
  | setHasSearched v =>
      mkState (keywords st) (location st) (jobType st) (minSalary st)
        (maxSalary st) v (currentPage st) (sortBy st) (savedJobs st)
        (applyingJobId st) (showApplyModal st) (applyNotes st) (jobs st)
  | setCurrentPage v =>
      mkState (keywords st) (location st) (jobType st) (minSalary st)
        (maxSalary st) (hasSearched st) v (sortBy st) (savedJobs st)
        (applyingJobId st) (showApplyModal st) (applyNotes st) (jobs st)
  | setSortBy v =>
      mkState (keywords st) (location st) (jobType st) (minSalary st)
        (maxSalary st) (hasSearched st) (currentPage st) v (savedJobs st)
        (applyingJobId st) (showApplyModal st) (applyNotes st) (jobs st)
  | setSavedJobs v =>
      mkState (keywords st) (location st) (jobType st) (minSalary st)
        (maxSalary st) (hasSearched st) (currentPage st) (sortBy st) v
        (applyingJobId st) (showApplyModal st) (applyNotes st) (jobs st)
  | setApplyingJobId v =>
      mkState (keywords st) (location st) (jobType st) (minSalary st)
        (maxSalary st) (hasSearched st) (currentPage st) (sortBy st)
        (savedJobs st) v (showApplyModal st) (applyNotes st) (jobs st)
  | setShowApplyModal v =>
      mkState (keywords st) (location st) (jobType st) (minSalary st)
        (maxSalary st) (hasSearched st) (currentPage st) (sortBy st)
        (savedJobs st) (applyingJobId st) v (applyNotes st) (jobs st)
  | setApplyNotes v =>
      mkState (keywords st) (location st) (jobType st) (minSalary st)
        (maxSalary st) (hasSearched st) (currentPage st) (sortBy st)
        (savedJobs st) (applyingJobId st) (showApplyModal st) v (jobs st)
  | preventDefault | toast_error _ | toast_success _ | refetch
  | mutate _ | invalidateQueries _ => st
  end.

(** Running a handler body: its operations, in program order. *)
Definition run (st : State) (ops : list Op) : State := foldl exec st ops.

Definition isRefetch (op : Op) : bool :=
  match op with refetch => true | _ => false end.

Definition isMutate (op : Op) : bool :=
  match op with mutate _ => true | _ => false end.

Definition isToastError (op : Op) : bool :=
  match op with toast_error _ => true | _ => false end.

Section Component.
Variable dateTime : string -> option Z.

(** [handleSearch] *)
Definition handleSearch (st : State) : list Op :=
  preventDefault ::
  if bool_decide (JS.trim (keywords st) = [])
  then [toast_error "Please enter job keywords"]
  else [setCurrentPage 1; setHasSearched true; refetch].

(** [toggleSaveJob] *)
Definition toggleSaveJob (st : State) (jobId : string) : list Op :=
  let newSaved := savedJobs st in
  if decide (jobId ∈ newSaved)
  then
    let newSaved := newSaved ∖ {[jobId]} in
    [toast_success "Removed from saved"; setSavedJobs newSaved]
  else
    let newSaved := newSaved ∪ {[jobId]} in
    [toast_success "Saved for later!"; setSavedJobs newSaved].

(** [handleApplyClick] *)
Definition handleApplyClick (st : State) (jobId : string) : list Op :=
  [setApplyingJobId (Some jobId); setShowApplyModal true].

(** [handleApplySubmit] *)
Definition handleApplySubmit (st : State) : list Op :=
  match applyingJobId st with
  | Some id =>
      if bool_decide (id = "") then []
      else [mutate {| job_id := id; status := Some "applied";
                      notes := Some (applyNotes st); tags := None |}]
  | None => []
  end.

(** The [onSuccess] callback of [createApplicationMutation]. *)
Definition onSuccess (st : State) : list Op :=
  [toast_success "Application created!"; setShowApplyModal false;
   setApplyNotes ""; setApplyingJobId None;
   invalidateQueries ["applications"]].

(** The [onError] callback of [createApplicationMutation]. *)
Definition onError (st : State) (error : Error) : list Op :=
  [toast_error (JS.str_or (message error) "Failed to create application")].

(** The [onChange] handler of the sort selector. *)
Definition sortBy_onChange (st : State) (value : SortBy) : list Op :=
  [setSortBy value; setCurrentPage 1].

(** [totalPages] as the render computes it from the state. *)
Definition totalPagesOf (st : State) : Z :=
  totalPages (sortedJobs dateTime (jobs st) (sortBy st)).

(** The [onClick] handlers of the pager: previous, numbered page, next. *)
Definition prevPage_onClick (st : State) : list Op :=
  [setCurrentPage (Z.max 1 (currentPage st - 1))].

Definition pageButton_onClick (st : State) (page : Z) : list Op :=
  [setCurrentPage page].

Definition nextPage_onClick (st : State) : list Op :=
  [setCurrentPage (Z.min (totalPagesOf st) (currentPage st + 1))].

(** The [onClick] handler of the Clear button. *)
Definition clear_onClick (st : State) : list Op :=
  [setKeywords []; setLocation ""; setJobType ""; setMinSalary "";
   setMaxSalary ""; setHasSearched false].

(** The [onClick] handler of the Cancel button of the apply modal. *)
Definition cancel_onClick (st : State) : list Op :=
  [setShowApplyModal false; setApplyNotes ""; setApplyingJobId None].
End Component.

(* ===================================================================== *)
(** * Events and steps                                                    *)
(* ===================================================================== *)

(** What can happen to a mounted [JobSearch]: the user operates a control, the
    mutation settles, or the query hook returns other data (a refetch settled,
    or the query key, which holds the form fields, changed). *)
Inductive Event : Type :=
  | submit_search
  | change_keywords (v : list N)
  | change_location (v : string)
  | change_jobType (v : string)
  | change_minSalary (v : string)
  | change_maxSalary (v : string)
  | click_clear
  | change_sortBy (v : SortBy)
  | click_save (jobId : string)
  | click_apply (jobId : string)
  | click_prev
  | click_page (page : Z)
  | click_next
  | change_applyNotes (v : string)
  | click_submitApplication
  | click_cancel
  | mutation_success
  | mutation_error (error : Error)
  | query_data (data : list Job).

Section Steps.
Variable dateTime : string -> option Z.

(** The handler the JSX wires to each control and callback. *)
Definition handle (st : State) (ev : Event) : list Op :=
  match ev with
  | submit_search => handleSearch st
  | change_keywords v => [setKeywords v]
  | change_location v => [setLocation v]
  | change_jobType v => [setJobType v]
  | change_minSalary v => [setMinSalary v]
  | change_maxSalary v => [setMaxSalary v]
  | click_clear => clear_onClick st
  | change_sortBy v => sortBy_onChange st v
  | click_save jobId => toggleSaveJob st jobId
  | click_apply jobId => handleApplyClick st jobId
  | click_prev => prevPage_onClick st
  | click_page page => pageButton_onClick st page
  | click_next => nextPage_onClick dateTime st
  | change_applyNotes v => [setApplyNotes v]
  | click_submitApplication => handleApplySubmit st
  | click_cancel => cancel_onClick st
  | mutation_success => onSuccess st
  | mutation_error error => onError st error
  | query_data _ => []
  end.

Definition step (st : State) (ev : Event) : State :=
  match ev with
  | query_data data =>
      mkState (keywords st) (location st) (jobType st) (minSalary st)
        (maxSalary st) (hasSearched st) (currentPage st) (sortBy st)
        (savedJobs st) (applyingJobId st) (showApplyModal st)
        (applyNotes st) data
  | _ => run st (handle st ev)
  end.

(** The job cards of the current render. *)
Definition shownJobs (st : State) : list Job :=
  paginatedJobs (sortedJobs dateTime (jobs st) (sortBy st)) (currentPage st).

(** Whether the render of [st] offers the control behind an event: the
    results block needs [jobs.length > 0], the pager [totalPages > 1], its
    arrows are disabled at the ends, the numbered buttons are those of
    [pageButtons], the card buttons belong to a shown job, and the modal
    controls need [showApplyModal].  (Controls disabled while a request is in
    flight are not told apart: the flags live in the hooks.) *)
Definition offered (st : State) (ev : Event) : bool :=
  let results := negb (Nat.eqb (length (jobs st)) 0) in
  let pager := results && (1 <? totalPagesOf dateTime st) in
  match ev with
  | change_sortBy _ => results
  | click_save jobId | click_apply jobId =>
      results && bool_decide (jobId ∈ Job._id <$> shownJobs st)
  | click_prev => pager && negb (currentPage st =? 1)
  | click_next => pager && negb (currentPage st =? totalPagesOf dateTime st)
  | click_page page =>
      pager &&
      bool_decide (page ∈ pageButtons (sortedJobs dateTime (jobs st) (sortBy st)))
  | change_applyNotes _ | click_submitApplication | click_cancel =>
      showApplyModal st
  | _ => true
  end.

(** A session: every event is one the render before it offers. *)
Fixpoint session (st : State) (evs : list Event) : option State :=
  match evs with
  | [] => Some st
  | ev :: evs' =>
      if offered st ev then session (step st ev) evs' else None
  end.
End Steps.

(* ===================================================================== *)
(** * Vocabulary of the statements                                        *)
(* ===================================================================== *)

(** A list is in descending order of a rational key. *)
Definition descending {A : Type} (key : A -> Q) (l : list A) : Prop :=
  StronglySorted (fun a b => (key b <= key a)%Q) l.

(** On the elements of [l], the comparison function is the difference of a
    key: key of the second argument minus key of the first. *)
Definition keyed {A : Type} (comparefn : A -> A -> option JS.number)
    (key : A -> Q) (l : list A) : Prop :=
  forall x y, In x l -> In y l ->
    (JS.SortCompare comparefn x y == key y - key x)%Q.

(** The elements of [l] whose key is [k], in their order in [l]. *)
Definition withKey {A : Type} (key : A -> Q) (k : Q) (l : list A) : list A :=
  List.filter (fun a => Qeq_bool (key a) k) l.

(** The sort keys as the specification words them: a missing match score or
    maximum salary counts as [0]. *)
Definition scoreKey (j : Job) : Q := default 0%Q (Job.match_score j).
Definition salaryKey (j : Job) : Q := default 0%Q (Job.salary_max j).

(** The posting date of a job as a time value; [None] when the job carries
    no date (the field is absent or empty) or the date does not parse. *)
Definition postingDate (dateTime : string -> option Z) (j : Job) : option Z :=
  match Job.posted_date j with
  | Some s => if decide (s = "") then None else dateTime s
  | None => None
  end.

(** Every date string that is present parses. *)
Definition datesParse (dateTime : string -> option Z) (l : list Job) : Prop :=
  Forall (fun j => is_Some (getTime dateTime (Job.posted_date j))) l.

(** The date key with a job without date placed at the epoch. *)
Definition epochKey (dateTime : string -> option Z) (j : Job) : Q :=
  inject_Z (default 0 (postingDate dateTime j)).

(** The date order with a job without date placed before every date:
    [earliestLe x y] reads "[x] is not later than [y]". *)
Definition earliestLe (x y : option Z) : Prop :=
  match x, y with
  | None, _ => True
  | Some _, None => False
  | Some a, Some b => a <= b
  end.

(** The pages the pager can show, in the order of its buttons. *)
Definition pages (sorted : list Job) : list (list Job) :=
  paginatedJobs sorted <$> pageButtons sorted.

(** [clamp lo hi x]: [x] brought into the interval from [lo] to [hi]. *)
Definition clamp (lo hi x : Z) : Z := Z.max lo (Z.min hi x).

(** The page index a pager control asks for: one less, one more, or the
    number on the button. *)
Definition requestedPage (st : State) (ev : Event) : option Z :=
  match ev with
  | click_prev => Some (currentPage st - 1)
  | click_page page => Some page
  | click_next => Some (currentPage st + 1)
  | _ => None
  end.

(** The pager controls a render can hold: the two arrows, and one button for
    each number of [pageButtons]. *)
Definition pagerControl (dateTime : string -> option Z) (st : State)
    (ev : Event) : bool :=
  match ev with
  | click_prev | click_next => true
  | click_page page =>
      bool_decide
        (page ∈ pageButtons (sortedJobs dateTime (jobs st) (sortBy st)))
  | _ => false
  end.

(** A string with no code unit other than white space (the empty string
    included). *)
Definition blank (s : list N) : bool := forallb JS.isWhiteSpace s.

(** The state cells at the moment the [n]-th operation of a handler body
    runs: the setters before it have taken effect. *)
Definition stateBefore (st : State) (ops : list Op) (n : nat) : State :=
  run st (take n ops).

(* ===================================================================== *)
(** * Sample data                                                         *)
(* ===================================================================== *)

(** A job with the given identifier, maximum salary, match score and posting
    date; the other fields do not take part in ranking. *)
Definition sampleJob (id : string) (salary_max match_score : option Q)
    (posted_date : option string) : Job :=
  {| Job._id := id; Job.title := "Software Engineer"; Job.company := "Acme";
     Job.location := "Remote"; Job.job_type := "full-time";
     Job.description := ""; Job.salary_min := None;
     Job.salary_max := salary_max; Job.url := "https://example.org/job";
     Job.source := "board"; Job.match_score := match_score;
     Job.posted_date := posted_date |}.

(** [new Date(s).getTime()] on the date strings the samples use (date-only
    ISO strings denote UTC midnight); other strings are taken as invalid. *)
Definition sampleDate (s : string) : option Z :=
  if decide (s = "1969-12-31") then Some (-86400000)
  else if decide (s = "2024-01-15") then Some 1705276800000
  else if decide (s = "2024-03-01") then Some 1709251200000
  else None.

Definition undatedJob : Job := sampleJob "a" (Some 90000%Q) None None.
Definition oldJob : Job := sampleJob "b" None (Some (7 # 2)%Q) (Some "1969-12-31").
Definition januaryJob : Job :=
  sampleJob "c" (Some 120000%Q) (Some 80%Q) (Some "2024-01-15").
Definition marchJob : Job :=
  sampleJob "d" (Some 90000%Q) (Some 80%Q) (Some "2024-03-01").

(** [n] jobs with identifiers ["0"], ["1"], ... and rising match scores. *)
Definition sampleJobs (n : nat) : list Job :=
  (fun i : nat => sampleJob (pretty i) None (Some (inject_Z (Z.of_nat i))) None)
    <$> seq 0 n.

Definition sampleState (js : list Job) (page : Z) : State :=
  {| keywords := JS.units "engineer"; location := ""; jobType := "";
     minSalary := ""; maxSalary := ""; hasSearched := true; currentPage := page;
     sortBy := relevance; savedJobs := ∅; applyingJobId := None;
     showApplyModal := false; applyNotes := ""; jobs := js |}.

(* ===================================================================== *)
(** * What the render of [JobSearch] shows                                *)
(* ===================================================================== *)

(** What a JSX child of the form [{guard && element}] puts on the page.
    React renders nothing for [undefined], [null] and [false], the digits
    of a number, and the element when the guard is truthy. *)
Inductive Rendered : Type :=
  | nothing
  | digits (q : JS.number)
  | salaryParagraph (text : string)
  | scoreBadge (percent : Z).

(** An optional number read as a condition: [undefined], [null] and [0] are
    falsy. *)
Definition truthy (x : option JS.number) : bool :=
  match x with
  | Some q => negb (Qeq_bool q 0)
  | None => false
  end.

(** [a || b] on optional numbers. *)
Definition or_else (a b : option JS.number) : option JS.number :=
  if truthy a then a else b.

(** [Math.round]: the nearest integer, halves upwards. *)
Definition Math_round (x : JS.number) : Z := Qfloor (x + (1 # 2)).

Section FormatSalary.
(** [Number.prototype.toLocaleString] depends on the host's locale and is a
    parameter. *)
Variable toLocaleString : JS.number -> string.

(** [x.toLocaleString()] on an optional number: a [TypeError], [None], when
    [x] is [undefined]. *)
Definition call_toLocaleString (x : option JS.number) : option string :=
  match x with
  | Some q => Some (toLocaleString q)
  | None => None
  end.

(** [x?.toLocaleString()] inside a template literal: the text ["undefined"]
    when [x] is [undefined]. *)
Definition optional_toLocaleString (x : option JS.number) : string :=
  match x with
  | Some q => toLocaleString q
  | None => "undefined"
  end.

(** [formatSalary], the same function text in [JobSearch] and in
    [SavedJobs]; [None] is a thrown [TypeError]. *)
Definition formatSalary (min max : option JS.number) : option string :=
  if negb (truthy min) && negb (truthy max) then Some "Not specified"
  else if truthy min && truthy max then
    match call_toLocaleString min, call_toLocaleString max with
    | Some a, Some b => Some ("$" +:+ a +:+ " - $" +:+ b)
    | _, _ => None
    end
  else if truthy min then
    match call_toLocaleString min with
    | Some a => Some ("$" +:+ a +:+ "+")
    | None => None
    end
  else Some ("Up to $" +:+ optional_toLocaleString max).

(** The salary line of a job card:
    [{(job.salary_min || job.salary_max) && <p>... {formatSalary(...)}</p>}].
    [salaryParagraph text] is the paragraph whose text, after the money-bag
    sign, is [text]. *)
Definition salaryLine (job : Job) : option Rendered :=
  let guard := or_else (Job.salary_min job) (Job.salary_max job) in
  if truthy guard then
    match formatSalary (Job.salary_min job) (Job.salary_max job) with
    | Some text => Some (salaryParagraph text)
    | None => None
    end
  else
    Some (match guard with Some q => digits q | None => nothing end).
End FormatSalary.

(** The match badge of a job card:
    [{job.match_score && <div>... {Math.round(job.match_score)}% ...</div>}]. *)
Definition matchBadge (job : Job) : Rendered :=
  match Job.match_score job with
  | Some q => if truthy (Some q) then scoreBadge (Math_round q) else digits q
  | None => nothing
  end.

(** The range shown beside the result count,
    [sortedJobs.length > itemsPerPage && (Showing first-last)]: the two
    numbers, or [None] when the label is not rendered. *)
Definition showingRange (sorted : list Job) (currentPage : Z) : option (Z * Z) :=
  if itemsPerPage <? Z.of_nat (length sorted)
  then Some ((currentPage - 1) * itemsPerPage + 1,
             Z.min (currentPage * itemsPerPage) (Z.of_nat (length sorted)))
  else None.

(** The blocks of the results section.  [isLoading] is the flag of the query
    hook. *)
Definition spinnerShown (isLoading : bool) : bool := isLoading.

Definition noJobsShown (st : State) (isLoading : bool) : bool :=
  hasSearched st && negb isLoading && Nat.eqb (length (jobs st)) 0.

Definition resultsShown (st : State) : bool :=
  negb (Nat.eqb (length (jobs st)) 0).

Definition pagerShown (dateTime : string -> option Z) (st : State) : bool :=
  resultsShown st && (1 <? totalPagesOf dateTime st).

(** The argument of [apiClient.searchJobs], as [queryFn] builds it. *)
Module SearchParams.
Record t : Type := mk {
  keywords : list N;
  location : option string;
  job_type : option string;
  min_salary : option (option Z);
  max_salary : option (option Z);
}.
End SearchParams.

Section Query.
(** [parseInt] on the text of a number input; [None] is [NaN].  It belongs to
    the host and is a parameter. *)
Variable parseInt : string -> option Z.

(** [s || undefined] *)
Definition or_undefined (s : string) : option string :=
  if decide (s = "") then None else Some s.

(** [s ? parseInt(s) : undefined] *)
Definition parsed_or_undefined (s : string) : option (option Z) :=
  if decide (s = "") then None else Some (parseInt s).

(** The call [queryFn] makes when a fetch runs in state [st]. *)
Definition queryFn (st : State) : SearchParams.t :=
  {| SearchParams.keywords := keywords st;
     SearchParams.location := or_undefined (location st);
     SearchParams.job_type := or_undefined (jobType st);
     SearchParams.min_salary := parsed_or_undefined (minSalary st);
     SearchParams.max_salary := parsed_or_undefined (maxSalary st) |}.
End Query.

(** The state after a run of events, offered or not. *)
Definition after (dateTime : string -> option Z) (st : State)
    (evs : list Event) : State :=
  foldl (step dateTime) st evs.



(** An operation that reaches the backend or the query cache. *)
Definition isRequest (op : Op) : bool :=
  match op with
  | refetch | mutate _ | invalidateQueries _ => true
  | _ => false
  end.

(** The current page lies between 1 and the page count. *)
Definition pageInRange (dateTime : string -> option Z) (st : State) : Prop :=
  1 <= currentPage st <= totalPagesOf dateTime st.

(* ===================================================================== *)
(** * The [SavedJobs] page                                                *)
(* ===================================================================== *)

(** Modelled from the spec: the application type that the [useApplications]
    hook returns is declared outside the files at hand.  The record has the
    fields [SavedJobs] reads ([id], the optional [job], [match_score],
    [notes], [created_at]), which are the identifier, the job reference, the
    note and the creation timestamp of the specification's Application. *)
Module Application.
Record t : Type := mk {
  id : string;
  job : option Job;
  match_score : option JS.number;
  notes : option string;
  created_at : string;
}.
End Application.

Module SavedJobs.
(** The [sortBy] state cell of [SavedJobs]: ['date' | 'salary']. *)
Inductive SortBy : Type := date | salary.

(** The blocks of the page. *)
Inductive Block : Type := loadingBlock | emptyBlock | listBlock.

Section Sorting.
Variable dateTime : string -> option Z.

(** [a.job?.salary_max] *)
Definition job_salary_max (a : Application.t) : option JS.number :=
  match Application.job a with
  | Some j => Job.salary_max j
  | None => None
  end.

(** [new Date(s).getTime()]: the empty string is no date. *)
Definition getTime (s : string) : option Z :=
  if decide (s = "") then None else dateTime s.

(** The comparison function of [sortedApplications]. *)
Definition comparefn (sortBy : SortBy) (a b : Application.t)
  : option JS.number :=
  match sortBy with
  | salary =>
      Some (JS.num_or (job_salary_max b) 0 - JS.num_or (job_salary_max a) 0)%Q
  | date =>
      match getTime (Application.created_at b),
            getTime (Application.created_at a) with
      | Some tb, Some ta => Some (inject_Z tb - inject_Z ta)%Q
      | _, _ => None
      end
  end.

(** [sortedApplications = [...applications].sort(...)] *)
Definition sortedApplications (applications : list Application.t)
    (sortBy : SortBy) : list Application.t :=
  JS.sort (comparefn sortBy) applications.
End Sorting.

(** The blocks the page renders, top to bottom. *)
Definition blocks (isLoading : bool) (applications : list Application.t)
  : list Block :=
  (if isLoading then [loadingBlock] else []) ++
  (if negb isLoading && Nat.eqb (length applications) 0
   then [emptyBlock] else []) ++
  (if negb isLoading && Nat.ltb 0 (length applications)
   then [listBlock] else []).

(** The sort keys of an application. *)
Definition salaryKey (a : Application.t) : Q := default 0%Q (job_salary_max a).

Definition createdKey (dateTime : string -> option Z) (a : Application.t) : Q :=
  inject_Z (default 0 (getTime dateTime (Application.created_at a))).

Definition datesParse (dateTime : string -> option Z)
    (l : list Application.t) : Prop :=
  Forall (fun a => is_Some (getTime dateTime (Application.created_at a))) l.
End SavedJobs.

(* ===================================================================== *)
(** * The [Navbar] and the routes of [App]                                *)
(* ===================================================================== *)

Module Navbar.
(** What the handlers of the bar do. *)
Inductive Op : Type :=
  | logout
  | navigate (to : string)
  | setIsOpen (v : bool).

(** The controls of the bar: the brand link, the desktop links and Logout
    button, the menu button, and the links and Logout button of the mobile
    menu. *)
Inductive Event : Type :=
  | click_brand
  | click_link (to : string)
  | click_logout
  | click_menuButton
  | click_menuLink (to : string)
  | click_menuLogout.

(** The [to] of the desktop links and of the mobile menu links, in order. *)
Definition desktopLinks : list string :=
  ["/dashboard"; "/jobs"; "/saved-jobs"; "/applications"; "/analytics"].

Definition menuLinks : list string :=
  ["/dashboard"; "/jobs"; "/saved-jobs"; "/applications"; "/analytics"].

(** [handleLogout] *)
Definition handleLogout : list Op := [logout; navigate "/login"].

(** The handler behind each control.  A [Link] runs its [onClick] and then
    navigates to its [to]. *)
Definition handle (isOpen : bool) (ev : Event) : list Op :=
  match ev with
  | click_brand => [navigate "/dashboard"]
  | click_link to => [navigate to]
  | click_logout => handleLogout
  | click_menuButton => [setIsOpen (negb isOpen)]
  | click_menuLink to => [setIsOpen false; navigate to]
  | click_menuLogout => handleLogout ++ [setIsOpen false]
  end.

(** The bar returns [null] when the user is not authenticated; the mobile
    menu is rendered when [isOpen]. *)
Definition offered (isAuthenticated isOpen : bool) (ev : Event) : bool :=
  isAuthenticated &&
  match ev with
  | click_link to => bool_decide (to ∈ desktopLinks)
  | click_menuLink to => isOpen && bool_decide (to ∈ menuLinks)
  | click_menuLogout => isOpen
  | _ => true
  end.

Definition exec (isOpen : bool) (op : Op) : bool :=
  match op with
  | setIsOpen v => v
  | _ => isOpen
  end.

Definition step (isOpen : bool) (ev : Event) : bool :=
  foldl exec isOpen (handle isOpen ev).

Definition isMenuEvent (ev : Event) : bool :=
  match ev with
  | click_menuLink _ | click_menuLogout => true
  | _ => false
  end.
End Navbar.

(** The element of a [Route] of [App]: a page, behind [PrivateRoute] or not,
    or a [Navigate]. *)
Inductive RouteElement : Type :=
  | element (component : string) (private : bool)
  | navigateTo (to : string).

(** The [Routes] of [App], in order. *)
Definition routes : list (string * RouteElement) :=
  [("/login", element "Login" false);
   ("/register", element "Register" false);
   ("/dashboard", element "Dashboard" true);
   ("/jobs", element "JobSearch" true);
   ("/saved-jobs", element "SavedJobs" true);
   ("/applications", element "ApplicationTracker" true);
   ("/analytics", element "Analytics" true);
   ("/", navigateTo "/dashboard")].

(** The element of the route with the given path. *)
Definition routeOf (path : string) : option RouteElement :=
  snd <$> List.find (fun r => bool_decide (fst r = path)) routes.

(** The value of an optional number when it is present and not 0. *)
Definition nonzero (x : option JS.number) : option JS.number :=
  match x with
  | Some q => if Qeq_bool q 0 then None else Some q
  | None => None
  end.

(** How often the save button of job [jobId] is clicked in a run of events. *)
Definition saveClicks (jobId : string) (evs : list Event) : nat :=
  length (List.filter
            (fun ev => match ev with
                       | click_save j => bool_decide (j = jobId)
                       | _ => false
                       end) evs).

(** Sample applications. *)
Definition sampleApplication (id : string) (job : option Job)
    (created_at : string) : Application.t :=
  {| Application.id := id; Application.job := job;
     Application.match_score := None; Application.notes := None;
     Application.created_at := created_at |}.

Definition sampleApplications : list Application.t :=
  [sampleApplication "p" (Some januaryJob) "2024-01-15";
   sampleApplication "q" None "2024-03-01";
   sampleApplication "r" (Some undatedJob) "1969-12-31"].

(* ===================================================================== *)
(** * Facts about the library functions                                   *)
(* ===================================================================== *)

Lemma num_or_0 (x : option JS.number) : (JS.num_or x 0 == default 0%Q x)%Q.
Proof.
  destruct x as [q|]; simpl; [|reflexivity].
  destruct (Qeq_bool q 0) eqn:E; [|reflexivity].
  apply Qeq_bool_iff in E. now rewrite E.
Qed.

Section SortFacts.
Context {A : Type}.
Variable comparefn : A -> A -> option JS.number.

Lemma insert_Permutation (x : A) (l : list A) :
  Permutation (JS.insert comparefn x l) (x :: l).
Proof.
  induction l as [|y l IH]; simpl.
  - reflexivity.
  - destruct (0 ?= JS.SortCompare comparefn x y)%Q; try reflexivity.
    rewrite IH. apply perm_swap.
Qed.

Lemma sort_Permutation (l : list A) : Permutation (JS.sort comparefn l) l.
Proof.
  induction l as [|x l IH]; simpl.
  - reflexivity.
  - rewrite insert_Permutation. now constructor.
Qed.

Lemma sort_In (l : list A) (x : A) : In x (JS.sort comparefn l) <-> In x l.
Proof.
  split; apply Permutation_in;
    [apply sort_Permutation | symmetry; apply sort_Permutation].
Qed.

(** Order: a comparison function that is the difference of a key makes the
    result descend in that key. *)
Variable key : A -> Q.

Lemma insert_descending (x : A) (l : list A) :
  keyed comparefn key (x :: l) -> descending key l ->
  descending key (JS.insert comparefn x l).
Proof.
  unfold descending. intros Hk Hs.
  induction l as [|y l IH]; simpl.
  - repeat constructor.
  - assert (Hxy : (JS.SortCompare comparefn x y == key y - key x)%Q)
      by (apply Hk; simpl; auto).
    apply StronglySorted_inv in Hs as [Hs Hall].
    destruct (0 ?= JS.SortCompare comparefn x y)%Q eqn:E.
    + apply Qeq_alt in E.
      assert (Hle : (key y <= key x)%Q) by lra.
      constructor; [now constructor|].
      constructor; [exact Hle|].
      eapply Forall_impl; [exact Hall|].
      intros b Hb. simpl in Hb. lra.
    + apply Qlt_alt in E.
      assert (Hlt : (key x < key y)%Q) by lra.
      constructor.
      * apply IH; [|exact Hs].
        intros a b Ha Hb. apply Hk; simpl in *; tauto.
      * apply List.Forall_forall. intros b Hb.
        apply (Permutation_in _ (insert_Permutation x l)) in Hb.
        destruct Hb as [<-|Hb]; [lra|].
        rewrite List.Forall_forall in Hall. now apply Hall.
    + apply Qgt_alt in E.
      assert (Hle : (key y <= key x)%Q) by lra.
      constructor; [now constructor|].
      constructor; [exact Hle|].
      eapply Forall_impl; [exact Hall|].
      intros b Hb. simpl in Hb. lra.
Qed.

Lemma sort_descending (l : list A) :
  keyed comparefn key l -> descending key (JS.sort comparefn l).
Proof.
  induction l as [|x l IH]; intros Hk; simpl.
  - constructor.
  - apply insert_descending.
    + intros a b Ha Hb. apply Hk.
      * destruct Ha as [<-|Ha]; [now left|right; now apply sort_In].
      * destruct Hb as [<-|Hb]; [now left|right; now apply sort_In].
    + apply IH. intros a b Ha Hb. apply Hk; now right.
Qed.
(** Stability: elements with the same key keep their order. *)
Lemma insert_withKey (k : Q) (x : A) (l : list A) :
  keyed comparefn key (x :: l) ->
  withKey key k (JS.insert comparefn x l) = withKey key k (x :: l).
Proof.
  intros Hk. induction l as [|y l IH]; [reflexivity|].
  assert (Hxy : (JS.SortCompare comparefn x y == key y - key x)%Q)
    by (apply Hk; simpl; auto).
  cbn [JS.insert].
  destruct (0 ?= JS.SortCompare comparefn x y)%Q eqn:E; try reflexivity.
  apply Qlt_alt in E.
  assert (IH' : withKey key k (JS.insert comparefn x l)
                = withKey key k (x :: l)).
  { apply IH. intros a b Ha Hb. apply Hk; simpl in *; tauto. }
  unfold withKey in *. cbn [List.filter] in *. rewrite IH'.
  destruct (Qeq_bool (key y) k) eqn:Ey, (Qeq_bool (key x) k) eqn:Ex;
    try reflexivity.
  apply Qeq_bool_iff in Ey, Ex. lra.
Qed.

Lemma sort_stable (k : Q) (l : list A) :
  keyed comparefn key l ->
  withKey key k (JS.sort comparefn l) = withKey key k l.
Proof.
  induction l as [|x l IH]; intros Hk; [reflexivity|].
  cbn [JS.sort foldr]. fold (JS.sort comparefn l).
  rewrite insert_withKey.
  - unfold withKey in *. cbn [List.filter]. rewrite IH; [reflexivity|].
    intros a b Ha Hb. apply Hk; now right.
  - intros a b Ha Hb. apply Hk.
    + destruct Ha as [<-|Ha]; [now left|right; now apply sort_In].
    + destruct Hb as [<-|Hb]; [now left|right; now apply sort_In].
Qed.

(** Two descending lists with the same elements in the same order under each
    key are the same list. *)
Lemma descending_unique (l1 l2 : list A) :
  descending key l1 -> descending key l2 ->
  (forall k, withKey key k l1 = withKey key k l2) ->
  l1 = l2.
Proof.
  revert l2. induction l1 as [|x l1 IH]; intros l2 H1 H2 Hf.
  - destruct l2 as [|y l2]; [reflexivity|].
    specialize (Hf (key y)). unfold withKey in Hf. cbn in Hf.
    rewrite (proj2 (Qeq_bool_iff _ _) (Qeq_refl (key y))) in Hf. discriminate.
  - destruct l2 as [|y l2].
    + specialize (Hf (key x)). unfold withKey in Hf. cbn in Hf.
      rewrite (proj2 (Qeq_bool_iff _ _) (Qeq_refl (key x))) in Hf. discriminate.
    + apply StronglySorted_inv in H1 as [H1 Hx].
      apply StronglySorted_inv in H2 as [H2 Hy].
      rewrite List.Forall_forall in Hx, Hy.
      assert (Hxy : (key x == key y)%Q).
      { assert (Hx2 : In x (y :: l2)).
        { assert (Hin : In x (withKey key (key x) (x :: l1))).
          { apply filter_In. split; [now left|]. apply Qeq_bool_iff, Qeq_refl. }
          rewrite Hf in Hin. now apply filter_In in Hin. }
        assert (Hy1 : In y (x :: l1)).
        { assert (Hin : In y (withKey key (key y) (y :: l2))).
          { apply filter_In. split; [now left|]. apply Qeq_bool_iff, Qeq_refl. }
          rewrite <- Hf in Hin. now apply filter_In in Hin. }
        destruct Hx2 as [->|Hx2]; [reflexivity|].
        destruct Hy1 as [->|Hy1]; [reflexivity|].
        specialize (Hx y Hy1). specialize (Hy x Hx2). simpl in *. lra. }
      assert (Heq : x = y).
      { pose proof (Hf (key x)) as E. unfold withKey in E.
        cbn [List.filter] in E.
        rewrite (proj2 (Qeq_bool_iff _ _) (Qeq_refl (key x))) in E.
        rewrite (proj2 (Qeq_bool_iff _ _) (Qeq_sym _ _ Hxy)) in E.
        now injection E. }
      subst y. f_equal. apply IH; [exact H1|exact H2|].
      intros k. specialize (Hf k). unfold withKey in *.
      cbn [List.filter] in Hf.
      destruct (Qeq_bool (key x) k); [now injection Hf|exact Hf].
Qed.

(** The result of [sort] is the only list that descends in the key and keeps
    the elements of each key in their original order: what a stable sort
    must return. *)
Lemma sort_determined (l l' : list A) :
  keyed comparefn key l ->
  descending key l' ->
  (forall k, withKey key k l' = withKey key k l) ->
  l' = JS.sort comparefn l.
Proof.
  intros Hk Hd Hs. apply descending_unique; [exact Hd| |].
  - now apply sort_descending.
  - intros k. rewrite Hs. symmetry. now apply sort_stable.
Qed.
End SortFacts.

Section OrderFacts.
Variable dateTime : string -> option Z.

Lemma bySalary_keyed (l : list Job) : keyed bySalary salaryKey l.
Proof.
  intros x y _ _. unfold JS.SortCompare, bySalary, salaryKey.
  now rewrite !num_or_0.
Qed.

Lemma byRelevance_keyed (l : list Job) : keyed byRelevance scoreKey l.
Proof.
  intros x y _ _. unfold JS.SortCompare, byRelevance, scoreKey.
  now rewrite !num_or_0.
Qed.

Lemma getTime_postingDate (j : Job) :
  is_Some (getTime dateTime (Job.posted_date j)) ->
  getTime dateTime (Job.posted_date j)
  = Some (default 0 (postingDate dateTime j)).
Proof.
  unfold getTime, postingDate.
  destruct (Job.posted_date j) as [s|]; [|reflexivity].
  destruct (decide (s = "")); [reflexivity|].
  now intros [t ->].
Qed.

Lemma byDate_keyed (l : list Job) :
  datesParse dateTime l -> keyed (byDate dateTime) (epochKey dateTime) l.
Proof.
  intros Hl x y Hx Hy. unfold datesParse in Hl.
  rewrite List.Forall_forall in Hl.
  unfold JS.SortCompare, byDate, epochKey.
  rewrite (getTime_postingDate x (Hl x Hx)), (getTime_postingDate y (Hl y Hy)).
  reflexivity.
Qed.

Lemma sortedJobs_Permutation (l : list Job) (mode : SortBy) :
  Permutation (sortedJobs dateTime l mode) l.
Proof. destruct mode; apply sort_Permutation. Qed.

Lemma sortedJobs_length (l : list Job) (mode : SortBy) :
  length (sortedJobs dateTime l mode) = length l.
Proof. apply Permutation_length, sortedJobs_Permutation. Qed.
End OrderFacts.

(** ** Paging *)

Lemma totalPages_div (l : list Job) :
  totalPages l = (Z.of_nat (length l) + 9) / 10.
Proof.
  unfold totalPages, JS.Math_ceil, Qceiling, Qfloor, itemsPerPage.
  generalize (Z.of_nat (length l)). intros n.
  cbn. Z.div_mod_to_equations. lia.
Qed.

Lemma totalPages_ceiling (l : list Job) :
  10 * (totalPages l - 1) < Z.of_nat (length l) <= 10 * totalPages l.
Proof. rewrite totalPages_div. Z.div_mod_to_equations. lia. Qed.

(** Page [i + 1] holds the ten items from position [10 * i] on. *)
Lemma paginatedJobs_chunk (l : list Job) (i : nat) :
  paginatedJobs l (Z.of_nat i + 1) = take 10 (drop (10 * i) l).
Proof.
  unfold paginatedJobs, JS.slice, itemsPerPage. cbv zeta.
  replace (Z.of_nat i + 1 - 1) with (Z.of_nat i) by lia.
  destruct (Z.ltb_spec (Z.of_nat i * 10) 0); [exfalso; lia|].
  destruct (Z.ltb_spec (Z.of_nat i * 10 + 10) 0); [exfalso; lia|].
  destruct (Z_le_gt_dec (Z.of_nat i * 10) (Z.of_nat (length l))) as [Hle|Hgt].
  - rewrite (Z.min_l (Z.of_nat i * 10)) by lia.
    replace (Z.to_nat (Z.of_nat i * 10)) with (10 * i)%nat by lia.
    destruct (Z_le_gt_dec (Z.of_nat i * 10 + 10) (Z.of_nat (length l))).
    + rewrite Z.min_l by lia. f_equal. lia.
    + rewrite Z.min_r by lia.
      rewrite !take_ge; [reflexivity| |]; rewrite length_drop; lia.
  - rewrite !Z.min_r by lia.
    replace (Z.to_nat (Z.of_nat (length l) - Z.of_nat (length l)))
      with 0%nat by lia.
    rewrite take_0. rewrite (drop_ge l (10 * i)) by lia. reflexivity.
Qed.

Lemma chunks_concat {A : Type} (k : nat) (l : list A) :
  (length l <= 10 * k)%nat ->
  concat ((fun i : nat => take 10 (drop (10 * i) l)) <$> seq 0 k) = l.
Proof.
  revert l. induction k as [|k IH]; intros l Hl.
  - destruct l; [reflexivity|simpl in Hl; lia].
  - rewrite <- cons_seq, <- fmap_S_seq. cbn [fmap list_fmap concat].
    rewrite <- list_fmap_compose.
    replace (10 * 0)%nat with 0%nat by lia. rewrite drop_0.
    transitivity (take 10 l ++ drop 10 l); [|apply take_drop]. f_equal.
    etransitivity; [|apply (IH (drop 10 l)); rewrite length_drop; lia].
    f_equal. apply list_fmap_ext. intros _ i _. simpl.
    rewrite drop_drop. do 2 f_equal. lia.
Qed.

Lemma pages_chunks (l : list Job) :
  pages l
  = (fun i : nat => take 10 (drop (10 * i) l)) <$> seq 0 (Z.to_nat (totalPages l)).
Proof.
  unfold pages, pageButtons. rewrite <- list_fmap_compose.
  apply list_fmap_ext. intros _ i _. apply paginatedJobs_chunk.
Qed.

Lemma pageButtons_range (l : list Job) (page : Z) :
  In page (pageButtons l) <-> 1 <= page <= totalPages l.
Proof.
  unfold pageButtons. rewrite in_map_iff. split.
  - intros (i & <- & Hi). apply in_seq in Hi. lia.
  - intros H. exists (Z.to_nat (page - 1)). split; [lia|].
    apply in_seq. lia.
Qed.

(* ===================================================================== *)
(** * Ranking                                                             *)
(* ===================================================================== *)

(** The four sample jobs in each mode; "a" and "d" tie on salary and keep
    their order, the undated "a" sits between the 2024 dates and 1969. *)
Example sortedJobs_samples :
  Job._id <$> sortedJobs sampleDate [undatedJob; oldJob; januaryJob; marchJob] salary
  = ["c"; "a"; "d"; "b"] /\
  Job._id <$> sortedJobs sampleDate [undatedJob; oldJob; januaryJob; marchJob] relevance
  = ["c"; "d"; "b"; "a"] /\
  Job._id <$> sortedJobs sampleDate [undatedJob; oldJob; januaryJob; marchJob] date
  = ["d"; "c"; "a"; "b"].
Proof. repeat split. Qed.

(** C2 (as amended).  In every sort mode the result is a permutation of the
    jobs; mode [relevance] puts it in descending order of match score with a
    missing score counted as 0; mode [salary] in descending order of maximum
    salary with a missing maximum counted as 0; mode [date], when every date
    string present parses, in descending order of posting time with a missing
    (or empty) date counted as time 0, the epoch. *)
Theorem sortedJobs_descending (dateTime : string -> option Z) (jobs : list Job) :
  descending scoreKey (sortedJobs dateTime jobs relevance) /\
  descending salaryKey (sortedJobs dateTime jobs salary) /\
  (datesParse dateTime jobs ->
   descending (epochKey dateTime) (sortedJobs dateTime jobs date)) /\
  (forall mode, Permutation (sortedJobs dateTime jobs mode) jobs).
Proof.
  repeat split.
  - apply sort_descending, byRelevance_keyed.
  - apply sort_descending, bySalary_keyed.
  - intros H. now apply sort_descending, byDate_keyed.
  - intros mode. apply sortedJobs_Permutation.
Qed.

(** Four sample jobs, one without date and one from 1969, sorted by date. *)
Lemma sortedJobs_descending_witness :
  datesParse sampleDate [undatedJob; oldJob; januaryJob; marchJob] /\
  descending (epochKey sampleDate)
    (sortedJobs sampleDate [undatedJob; oldJob; januaryJob; marchJob] date).
Proof.
  assert (H : datesParse sampleDate [undatedJob; oldJob; januaryJob; marchJob])
    by (repeat constructor; eexists; reflexivity).
  split; [exact H|].
  exact (proj1 (proj2 (proj2 (sortedJobs_descending sampleDate _))) H).
Defined.

(** C2, the counterexample.  A job without posting date is not ranked as the
    earliest: sorted by date it comes before a job posted on 1969-12-31, whose
    time value is negative. *)
Lemma sortedJobs_date_undated_before_old :
  sortedJobs sampleDate [oldJob; undatedJob] date = [undatedJob; oldJob] /\
  datesParse sampleDate [oldJob; undatedJob] /\
  postingDate sampleDate undatedJob = None /\
  postingDate sampleDate oldJob = Some (-86400000) /\
  ~ StronglySorted
      (fun a b => earliestLe (postingDate sampleDate b) (postingDate sampleDate a))
      (sortedJobs sampleDate [oldJob; undatedJob] date).
Proof.
  split; [reflexivity|].
  split; [repeat constructor; eexists; reflexivity|].
  split; [reflexivity|]. split; [reflexivity|].
  intros H. change (sortedJobs sampleDate [oldJob; undatedJob] date)
    with [undatedJob; oldJob] in H.
  apply StronglySorted_inv in H as [_ H].
  apply Forall_inv in H. exact H.
Qed.

(** C7.  Sorting by salary yields a permutation of the jobs: same length,
    same members, each record as it was.  On the arrays themselves: the
    array that held the jobs still holds them in their order afterwards, and
    the sorted list sits in a different array. *)
Theorem sortedJobs_salary_permutation (dateTime : string -> option Z)
    (jobs : list Job) :
  Permutation jobs (sortedJobs dateTime jobs salary) /\
  length (sortedJobs dateTime jobs salary) = length jobs /\
  (forall j, In j (sortedJobs dateTime jobs salary) <-> In j jobs) /\
  (forall (h : gmap positive (list Job)) (a : positive),
     let h0 := <[a := jobs]> h in
     let r := sortedJobs_arrays dateTime h0 a salary in
     r.2 !! a = Some jobs /\
     r.2 !! r.1 = Some (sortedJobs dateTime jobs salary) /\
     r.1 <> a /\
     (forall b, b <> r.1 -> r.2 !! b = h0 !! b)).
Proof.
  split; [symmetry; apply sortedJobs_Permutation|].
  split; [apply sortedJobs_length|].
  split; [intros j0; apply sort_In|].
  intros h a h0 r.
  assert (Hfresh : fresh (dom h0) <> a).
  { intros E. apply (is_fresh (dom h0)). rewrite E.
    apply elem_of_dom. exists jobs. apply lookup_insert_eq. }
  subst r. unfold sortedJobs_arrays, spread, sort_in_place. simpl.
  rewrite (lookup_insert_eq h a jobs : h0 !! a = Some jobs). simpl.
  repeat split.
  - rewrite lookup_alter_ne by exact Hfresh.
    rewrite lookup_insert_ne by exact Hfresh. apply lookup_insert_eq.
  - rewrite lookup_alter_eq, lookup_insert_eq. reflexivity.
  - exact Hfresh.
  - intros b Hb. rewrite lookup_alter_ne by congruence.
    rewrite lookup_insert_ne by congruence. reflexivity.
Qed.

(* ===================================================================== *)
(** * Paging                                                              *)
(* ===================================================================== *)

(** C1.  For [N] jobs in any sort mode, the pages of the sorted list number
    [k] with [10 (k - 1) < N <= 10 k], that is [k] is the ceiling of [N / 10];
    each page has at most 10 items and none is empty; the pages joined in
    order are the sorted list. *)
Theorem pages_cover (dateTime : string -> option Z) (jobs : list Job)
    (mode : SortBy) :
  let sorted := sortedJobs dateTime jobs mode in
  let N := Z.of_nat (length jobs) in
  let k := Z.of_nat (length (pages sorted)) in
  10 * (k - 1) < N <= 10 * k /\
  Forall (fun page => (length page <= 10)%nat) (pages sorted) /\
  Forall (fun page => page <> []) (pages sorted) /\
  concat (pages sorted) = sorted.
Proof.
  intros sorted N k.
  assert (HN : Z.of_nat (length sorted) = N)
    by (unfold sorted, N; now rewrite sortedJobs_length).
  pose proof (totalPages_ceiling sorted) as HT. rewrite HN in HT.
  assert (Hk : k = totalPages sorted).
  { unfold k. rewrite pages_chunks, length_fmap, length_seq. lia. }
  split; [rewrite Hk; exact HT|].
  rewrite pages_chunks. repeat split.
  - apply List.Forall_forall. intros page Hp.
    apply in_map_iff in Hp as (i & <- & _). rewrite length_take. lia.
  - apply List.Forall_forall. intros page Hp.
    apply in_map_iff in Hp as (i & <- & Hi). apply in_seq in Hi.
    intros E. apply (f_equal length) in E.
    rewrite length_take, length_drop in E. change (length []) with 0%nat in E.
    lia.
  - apply chunks_concat. lia.
Qed.

(** 23 jobs make three pages: two of 10 jobs, and page 3 with the remaining
    3. *)
Example pages_of_23 :
  let sorted := sortedJobs sampleDate (sampleJobs 23) date in
  totalPages sorted = 3 /\
  length <$> pages sorted = [10; 10; 3]%nat /\
  paginatedJobs sorted 3 = drop 20 sorted.
Proof. vm_compute. repeat split. Qed.

(** C3 (as amended).  When the current page lies between 1 and the page
    count, every pager control (the previous and next arrows as they are
    wired, and the numbered buttons, which exist for 1 to the page count)
    leaves the page index equal to the requested index clamped to that
    interval: previous stops at 1, next stops at the page count.  The page
    count is the ceiling of the number of results divided by 10, the result
    set is not touched, and the page shown starts at item [10 (p - 1)] of the
    sorted list, so that page indices count from 1. *)
Theorem pager_clamps (dateTime : string -> option Z) (st : State) (ev : Event)
    (r : Z) :
  1 <= currentPage st <= totalPagesOf dateTime st ->
  pagerControl dateTime st ev = true ->
  requestedPage st ev = Some r ->
  let T := totalPagesOf dateTime st in
  let st' := step dateTime st ev in
  let p := currentPage st' in
  p = clamp 1 T r /\
  1 <= p <= T /\
  10 * (T - 1) < Z.of_nat (length (jobs st)) <= 10 * T /\
  jobs st' = jobs st /\ sortBy st' = sortBy st /\
  shownJobs dateTime st'
  = take 10 (drop (10 * Z.to_nat (p - 1))
               (sortedJobs dateTime (jobs st) (sortBy st))).
Proof.
  intros Hp Hoff Hreq T st' p.
  assert (Hsame : jobs st' = jobs st /\ sortBy st' = sortBy st /\
                  p = clamp 1 T r /\ 1 <= p <= T).
  { unfold p, st', clamp. fold T in Hp.
    destruct ev; try discriminate Hreq; simpl in Hreq;
      injection Hreq as <-; simpl.
    - repeat split; lia.
    - simpl in Hoff.
      apply bool_decide_eq_true in Hoff as Hin. apply list_elem_of_In in Hin.
      apply pageButtons_range in Hin. fold (totalPagesOf dateTime st) in Hin.
      fold T in Hin. repeat split; lia.
    - fold T. repeat split; lia. }
  destruct Hsame as (Hj & Hs & Hc & Hr).
  split; [exact Hc|]. split; [exact Hr|].
  split.
  { pose proof (totalPages_ceiling (sortedJobs dateTime (jobs st) (sortBy st))) as H.
    rewrite sortedJobs_length in H. exact H. }
  split; [exact Hj|]. split; [exact Hs|].
  unfold shownJobs. rewrite Hj, Hs. fold p.
  replace p with (Z.of_nat (Z.to_nat (p - 1)) + 1) at 1 by lia.
  apply paginatedJobs_chunk.
Qed.

(** On page 3 of 3, the next arrow asks for page 4 and the page stays 3. *)
Lemma pager_clamps_witness :
  1 <= currentPage (sampleState (sampleJobs 23) 3)
    <= totalPagesOf sampleDate (sampleState (sampleJobs 23) 3) /\
  pagerControl sampleDate (sampleState (sampleJobs 23) 3) click_next = true /\
  requestedPage (sampleState (sampleJobs 23) 3) click_next = Some 4 /\
  currentPage (step sampleDate (sampleState (sampleJobs 23) 3) click_next) = 3.
Proof.
  assert (H1 : 1 <= currentPage (sampleState (sampleJobs 23) 3)
                 <= totalPagesOf sampleDate (sampleState (sampleJobs 23) 3))
    by (vm_compute; split; discriminate).
  assert (H2 : pagerControl sampleDate (sampleState (sampleJobs 23) 3)
                 click_next = true) by reflexivity.
  assert (H3 : requestedPage (sampleState (sampleJobs 23) 3) click_next
               = Some 4) by reflexivity.
  split; [exact H1|]. split; [exact H2|]. split; [exact H3|].
  exact (proj1 (pager_clamps sampleDate _ click_next 4 H1 H2 H3)).
Defined.

(** C3, the counterexample.  The page index in use is not always within 1
    and the page count.  First, a search that finds no job leaves page index
    1 with page count 0.  Second, the index is not clamped when the result
    set changes under it: a search brings 12 results; a second search is
    submitted, and while it is in flight the user opens page 2 of the results
    still on screen; the new results, 3 jobs, arrive.  The page count is now
    1, the page index is still 2, and the page shown is empty. *)
Lemma page_index_not_clamped :
  (exists st,
     session sampleDate initialState
       [change_keywords (JS.units "engineer"); submit_search; query_data []] = Some st /\
     currentPage st = 1 /\
     totalPagesOf sampleDate st = 0 /\
     ~ (1 <= currentPage st <= totalPagesOf sampleDate st)) /\
  (exists st,
     session sampleDate initialState
       [change_keywords (JS.units "engineer"); submit_search;
        query_data (sampleJobs 12);
        submit_search; click_page 2; query_data (sampleJobs 3)] = Some st /\
     currentPage st = 2 /\
     totalPagesOf sampleDate st = 1 /\
     length (jobs st) = 3%nat /\
     shownJobs sampleDate st = [] /\
     paginatedJobs (sortedJobs sampleDate (jobs st) (sortBy st))
       (clamp 1 (totalPagesOf sampleDate st) (currentPage st))
     = sortedJobs sampleDate (jobs st) (sortBy st) /\
     ~ (1 <= currentPage st <= totalPagesOf sampleDate st)).
Proof.
  split.
  - eexists. split; [vm_compute; reflexivity|].
    repeat split; try reflexivity.
    vm_compute. intros [_ H]. now apply H.
  - eexists. split; [vm_compute; reflexivity|].
    repeat split; try reflexivity.
    vm_compute. intros [_ H]. now apply H.
Qed.

(* ===================================================================== *)
(** * Facts about [trim] and about running handler bodies                 *)
(* ===================================================================== *)

Lemma trimStart_nil (l : list N) :
  JS.trimStart l = [] <-> forallb JS.isWhiteSpace l = true.
Proof.
  induction l as [|c l IH]; simpl; [tauto|].
  destruct (JS.isWhiteSpace c); simpl; [exact IH|].
  split; discriminate.
Qed.

Lemma trimStart_all (l : list N) :
  forallb JS.isWhiteSpace (JS.trimStart l) = true ->
  forallb JS.isWhiteSpace l = true.
Proof.
  induction l as [|c l IH]; simpl; [tauto|].
  destruct (JS.isWhiteSpace c) eqn:E; simpl; [exact IH|].
  rewrite E. discriminate.
Qed.

Lemma forallb_rev {A : Type} (f : A -> bool) (l : list A) :
  forallb f (rev l) = forallb f l.
Proof.
  induction l as [|x l IH]; simpl; [reflexivity|].
  rewrite forallb_app, IH. simpl. rewrite andb_true_r. apply andb_comm.
Qed.

Example trim_samples :
  JS.trim (JS.units "  data  engineer ") = JS.units "data  engineer" /\
  JS.trim (JS.units "   ") = [] /\
  JS.trim [12288; 9; 65279]%N = [] /\
  JS.trim [] = [].
Proof. repeat split. Qed.

(** [trim] leaves nothing exactly when the string is blank. *)
Lemma trim_blank (s : list N) : JS.trim s = [] <-> blank s = true.
Proof.
  unfold JS.trim, JS.trimEnd, blank. split.
  - intros H. apply (f_equal (@rev _)) in H. rewrite rev_involutive in H.
    simpl in H. apply trimStart_nil in H. rewrite forallb_rev in H.
    now apply trimStart_all.
  - intros H. apply trimStart_nil in H. rewrite H. reflexivity.
Qed.

Lemma blank_nonempty (s : list N) : blank s = false -> s <> [].
Proof. intros H ->. discriminate H. Qed.

Lemma handleSearch_cases (st : State) :
  handleSearch st
  = preventDefault ::
    (if blank (keywords st) then [toast_error "Please enter job keywords"]
     else [setCurrentPage 1; setHasSearched true; refetch]).
Proof.
  unfold handleSearch. f_equal.
  destruct (blank (keywords st)) eqn:E.
  - apply trim_blank in E. now rewrite bool_decide_eq_true_2.
  - rewrite bool_decide_eq_false_2; [reflexivity|].
    intros H. apply trim_blank in H. congruence.
Qed.

(** Only [handleSearch] calls [refetch], only [handleApplySubmit] calls
    [mutate]. *)
Lemma refetch_only_in_handleSearch (dateTime : string -> option Z) (st : State)
    (ev : Event) :
  In refetch (handle dateTime st ev) ->
  ev = submit_search /\ blank (keywords st) = false.
Proof.
  destruct ev; cbn [handle];
    try (simpl; intros H; repeat (destruct H as [H|H]; try discriminate H);
         tauto).
  - rewrite handleSearch_cases. destruct (blank (keywords st)); simpl.
    + intros H. repeat (destruct H as [H|H]; try discriminate H). tauto.
    + auto.
  - unfold toggleSaveJob. destruct (decide _); simpl;
      intros H; repeat (destruct H as [H|H]; try discriminate H); tauto.
  - unfold handleApplySubmit. destruct (applyingJobId st); simpl; [|tauto].
    destruct (bool_decide _); simpl; [tauto|].
    intros H; repeat (destruct H as [H|H]; try discriminate H); tauto.
Qed.

Lemma mutate_only_in_handleApplySubmit (dateTime : string -> option Z)
    (st : State) (ev : Event) (data : ApplicationData) :
  In (mutate data) (handle dateTime st ev) ->
  ev = click_submitApplication /\
  applyingJobId st = Some (job_id data) /\ job_id data <> "".
Proof.
  destruct ev; cbn [handle];
    try (simpl; intros H; repeat (destruct H as [H|H]; try discriminate H);
         tauto).
  - rewrite handleSearch_cases. destruct (blank (keywords st)); simpl;
      intros H; repeat (destruct H as [H|H]; try discriminate H); tauto.
  - unfold toggleSaveJob. destruct (decide _); simpl;
      intros H; repeat (destruct H as [H|H]; try discriminate H); tauto.
  - unfold handleApplySubmit. destruct (applyingJobId st) as [id|]; simpl; [|tauto].
    destruct (bool_decide (id = "")) eqn:E; simpl; [tauto|].
    apply bool_decide_eq_false in E.
    intros [H|[]]. injection H as <-. simpl. auto.
Qed.

(* ===================================================================== *)
(** * Saved jobs                                                          *)
(* ===================================================================== *)

Lemma remove_then_add (s : gset string) (x : string) :
  x ∈ s -> (s ∖ {[x]}) ∪ {[x]} = s.
Proof.
  intros Hin. apply set_eq. intros y.
  rewrite elem_of_union, elem_of_difference, elem_of_singleton.
  destruct (decide (y = x)) as [->|Hne]; tauto.
Qed.

Lemma add_then_remove (s : gset string) (x : string) :
  x ∉ s -> (s ∪ {[x]}) ∖ {[x]} = s.
Proof.
  intros Hout. apply set_eq. intros y.
  rewrite elem_of_difference, elem_of_union, elem_of_singleton.
  destruct (decide (y = x)) as [->|Hne]; tauto.
Qed.

Lemma toggleSaveJob_savedJobs (st : State) (jobId : string) :
  savedJobs (run st (toggleSaveJob st jobId))
  = (if bool_decide (jobId ∈ savedJobs st)
     then savedJobs st ∖ {[jobId]} else savedJobs st ∪ {[jobId]}).
Proof.
  unfold toggleSaveJob.
  destruct (decide (jobId ∈ savedJobs st)) as [Hin|Hout].
  - now rewrite bool_decide_eq_true_2.
  - now rewrite bool_decide_eq_false_2.
Qed.

(** C4.  Toggling the same identifier twice gives back the state it started
    from, the saved set in particular.  One toggle flips the membership of
    the identifier and of nothing else: it removes the identifier when it is
    in the set and adds it when it is not. *)
Theorem toggleSaveJob_involution (st : State) (jobId : string) :
  let st1 := run st (toggleSaveJob st jobId) in
  let st2 := run st1 (toggleSaveJob st1 jobId) in
  st2 = st /\
  savedJobs st2 = savedJobs st /\
  (jobId ∈ savedJobs st1 <-> jobId ∉ savedJobs st) /\
  (forall x, x <> jobId -> (x ∈ savedJobs st1 <-> x ∈ savedJobs st)) /\
  savedJobs st1
  = (if bool_decide (jobId ∈ savedJobs st)
     then savedJobs st ∖ {[jobId]} else savedJobs st ∪ {[jobId]}).
Proof.
  intros st1 st2.
  pose proof (toggleSaveJob_savedJobs st jobId) as Hone. fold st1 in Hone.
  assert (Hback : st2 = st).
  { unfold st2, st1, toggleSaveJob.
    destruct st as [? ? ? ? ? ? ? ? s ? ? ? ?]. cbn [savedJobs].
    destruct (decide (jobId ∈ s)) as [Hin|Hout]; cbn.
    - destruct (decide (jobId ∈ s ∖ {[jobId]})) as [Hin'|_].
      + apply elem_of_difference in Hin' as [_ Hne].
        exfalso. apply Hne. now apply elem_of_singleton.
      + cbn. f_equal. now apply remove_then_add.
    - destruct (decide (jobId ∈ s ∪ {[jobId]})) as [_|Hout'].
      + cbn. f_equal. now apply add_then_remove.
      + exfalso. apply Hout'. apply elem_of_union. right.
        now apply elem_of_singleton. }
  split; [exact Hback|]. split; [now rewrite Hback|].
  rewrite Hone. destruct (decide (jobId ∈ savedJobs st)) as [Hin|Hout].
  - rewrite bool_decide_eq_true_2 by exact Hin.
    split; [|split; [|reflexivity]].
    + rewrite elem_of_difference, elem_of_singleton. tauto.
    + intros x Hx. rewrite elem_of_difference, elem_of_singleton. tauto.
  - rewrite bool_decide_eq_false_2 by exact Hout.
    split; [|split; [|reflexivity]].
    + rewrite elem_of_union, elem_of_singleton. tauto.
    + intros x Hx. rewrite elem_of_union, elem_of_singleton. tauto.
Qed.

(* ===================================================================== *)
(** * Search                                                              *)
(* ===================================================================== *)

(** C5.  When the keywords are blank (empty, or white space only),
    [handleSearch] cancels the form's default action, shows the error toast
    and does nothing else: no [refetch], no state change.  Whatever the
    event, a [refetch] is called only by a search submission with keywords
    that are not blank, so not empty; and such a submission does call it. *)
Theorem handleSearch_requires_keywords (dateTime : string -> option Z)
    (st : State) :
  (blank (keywords st) = true ->
   handleSearch st = [preventDefault; toast_error "Please enter job keywords"] /\
   existsb isRefetch (handleSearch st) = false /\
   existsb isToastError (handleSearch st) = true /\
   step dateTime st submit_search = st) /\
  (forall ev, In refetch (handle dateTime st ev) ->
   ev = submit_search /\ keywords st <> [] /\ blank (keywords st) = false) /\
  (blank (keywords st) = false -> In refetch (handleSearch st)).
Proof.
  split; [|split].
  - intros Hb. cbn [step handle]. rewrite handleSearch_cases, Hb.
    repeat split.
  - intros ev H. apply refetch_only_in_handleSearch in H as [-> Hb].
    repeat split; [|exact Hb]. now apply blank_nonempty.
  - intros Hb. rewrite handleSearch_cases, Hb. simpl. tauto.
Qed.

(** Keywords of two spaces: the submission only shows the error toast. *)
Lemma handleSearch_requires_keywords_witness :
  blank (keywords (step sampleDate initialState
                     (change_keywords (JS.units "  ")))) = true /\
  handleSearch (step sampleDate initialState (change_keywords (JS.units "  ")))
  = [preventDefault; toast_error "Please enter job keywords"].
Proof.
  assert (H : blank (keywords (step sampleDate initialState
                                 (change_keywords (JS.units "  ")))) = true)
    by reflexivity.
  split; [exact H|].
  exact (proj1 (proj1 (handleSearch_requires_keywords sampleDate _) H)).
Defined.

(** C9.  A search that is issued resets the page to 1 before anything else
    can show results: at the moment [refetch] is called the page cell has
    already been set to 1, the state after the handler has page 1, and when
    the data then arrives the first page of it is what is shown. *)
Theorem handleSearch_resets_page (dateTime : string -> option Z) (st : State) :
  In refetch (handleSearch st) ->
  (forall n, handleSearch st !! n = Some refetch ->
     currentPage (stateBefore st (handleSearch st) n) = 1) /\
  currentPage (step dateTime st submit_search) = 1 /\
  (forall data,
     let st' := step dateTime (step dateTime st submit_search) (query_data data) in
     currentPage st' = 1 /\
     shownJobs dateTime st' = take 10 (sortedJobs dateTime data (sortBy st))).
Proof.
  intros H.
  apply (refetch_only_in_handleSearch dateTime st submit_search) in H as [_ Hb].
  cbn [step handle]. rewrite handleSearch_cases, Hb.
  split; [|split].
  - intros n Hn. do 3 (destruct n as [|n]; [discriminate Hn|]).
    destruct n as [|n]; [reflexivity|discriminate Hn].
  - reflexivity.
  - intros data. split; [reflexivity|].
    unfold shownJobs. cbn.
    apply (paginatedJobs_chunk _ 0).
Qed.

(** A search submitted from page 3 of 23 results. *)
Lemma handleSearch_resets_page_witness :
  In refetch (handleSearch (sampleState (sampleJobs 23) 3)) /\
  currentPage (step sampleDate (sampleState (sampleJobs 23) 3) submit_search) = 1.
Proof.
  assert (H : In refetch (handleSearch (sampleState (sampleJobs 23) 3)))
    by (vm_compute; tauto).
  split; [exact H|].
  exact (proj1 (proj2 (handleSearch_resets_page sampleDate _ H))).
Defined.

(** C10.  Changing the sort mode, to any of the three modes and from any
    state, sets the mode and puts the page index back to 1; the view then
    shows the first page of the re-sorted results. *)
Theorem sortBy_onChange_resets_page (dateTime : string -> option Z)
    (st : State) (value : SortBy) :
  let st' := step dateTime st (change_sortBy value) in
  sortBy_onChange st value = [setSortBy value; setCurrentPage 1] /\
  currentPage st' = 1 /\
  sortBy st' = value /\
  jobs st' = jobs st /\
  shownJobs dateTime st' = take 10 (sortedJobs dateTime (jobs st) value).
Proof.
  cbn. repeat split. unfold shownJobs. cbn.
  apply (paginatedJobs_chunk _ 0).
Qed.

(* ===================================================================== *)
(** * Applying                                                            *)
(* ===================================================================== *)

Lemma str_or_cases (x : option string) (d : string) :
  (forall m, x = Some m -> m <> "" -> JS.str_or x d = m) /\
  (x = None \/ x = Some "" -> JS.str_or x d = d).
Proof.
  split.
  - intros m -> Hm. simpl. now destruct (decide (m = "")).
  - intros [->| ->]; reflexivity.
Qed.

(** C6.  Submitting with a job identifier sends one create-application
    request for that job, with status "applied" and the note.  When the
    request succeeds, whatever the state then is, the modal is closed, the
    note is emptied, the job identifier is dropped, the success toast is shown
    and the ["applications"] queries are invalidated.  When it fails, one error
    toast is shown, carrying the error's message or, when that is missing or
    empty, "Failed to create application"; no state cell changes, so the
    modal stays as it was and the same submission can be sent again. *)
Theorem createApplication_settles (st : State) (id : string) :
  applyingJobId st = Some id -> id <> "" ->
  handleApplySubmit st
  = [mutate {| job_id := id; status := Some "applied";
               notes := Some (applyNotes st); tags := None |}] /\
  (forall st2,
     let st' := run st2 (onSuccess st2) in
     showApplyModal st' = false /\ applyNotes st' = "" /\
     applyingJobId st' = None /\
     In (invalidateQueries ["applications"]) (onSuccess st2) /\
     In (toast_success "Application created!") (onSuccess st2)) /\
  (forall st2 error,
     let st' := run st2 (onError st2 error) in
     st' = st2 /\ showApplyModal st' = showApplyModal st2 /\
     (forall m, message error = Some m -> m <> "" ->
        onError st2 error = [toast_error m]) /\
     (message error = None \/ message error = Some "" ->
        onError st2 error = [toast_error "Failed to create application"]) /\
     handleApplySubmit (run st (onError st error)) = handleApplySubmit st).
Proof.
  intros Hid Hne. split; [|split].
  - unfold handleApplySubmit. rewrite Hid.
    now rewrite bool_decide_eq_false_2.
  - intros st2. cbn. tauto.
  - intros st2 error. cbn. repeat split.
    + intros m Hm Hm'. unfold onError.
      now rewrite (proj1 (str_or_cases _ _) m Hm Hm').
    + intros H. unfold onError. now rewrite (proj2 (str_or_cases _ _) H).
Qed.

(** Apply is clicked on job "c" and the modal is submitted with no note. *)
Lemma createApplication_settles_witness :
  applyingJobId (step sampleDate initialState (click_apply "c")) = Some "c" /\
  "c" <> "" /\
  handleApplySubmit (step sampleDate initialState (click_apply "c"))
  = [mutate {| job_id := "c"; status := Some "applied"; notes := Some "";
               tags := None |}].
Proof.
  assert (H1 : applyingJobId (step sampleDate initialState (click_apply "c"))
               = Some "c") by reflexivity.
  assert (H2 : "c" <> "") by discriminate.
  split; [exact H1|]. split; [exact H2|].
  exact (proj1 (createApplication_settles _ "c" H1 H2)).
Defined.

(** C8.  With no job identifier in the state (none, or the empty string),
    [handleApplySubmit] returns at once: no [mutate], nothing else either.
    Whatever the event, a [mutate] is called only by a submission whose state
    holds a non-empty job identifier, the one sent. *)
Theorem handleApplySubmit_requires_job (dateTime : string -> option Z)
    (st : State) :
  (applyingJobId st = None \/ applyingJobId st = Some "" ->
   handleApplySubmit st = [] /\
   existsb isMutate (handleApplySubmit st) = false /\
   step dateTime st click_submitApplication = st) /\
  (forall ev data, In (mutate data) (handle dateTime st ev) ->
   ev = click_submitApplication /\
   applyingJobId st = Some (job_id data) /\ job_id data <> "").
Proof.
  split.
  - intros H. cbn [step handle].
    assert (E : handleApplySubmit st = [])
      by (unfold handleApplySubmit; destruct H as [-> | ->]; reflexivity).
    rewrite E. repeat split.
  - intros ev data. apply mutate_only_in_handleApplySubmit.
Qed.

(** In the initial state no job is selected: submitting does nothing. *)
Lemma handleApplySubmit_requires_job_witness :
  (applyingJobId initialState = None \/ applyingJobId initialState = Some "") /\
  handleApplySubmit initialState = [].
Proof.
  assert (H : applyingJobId initialState = None \/
              applyingJobId initialState = Some "") by (left; reflexivity).
  split; [exact H|].
  exact (proj1 (proj1 (handleApplySubmit_requires_job sampleDate _) H)).
Defined.

(* ===================================================================== *)
(** * The job card: salary line and match badge                           *)
(* ===================================================================== *)

Lemma truthy_nonzero (x : option JS.number) :
  truthy x = match nonzero x with Some _ => true | None => false end.
Proof.
  destruct x as [q|]; simpl; [|reflexivity].
  now destruct (Qeq_bool q 0).
Qed.

(** X1.  [formatSalary] never throws and never prints "undefined": with a
    bound counted only when it is present and not 0, it gives "Not specified"
    for no bound, "$min - $max" for two, "$min+" for a minimum alone and
    "Up to $max" for a maximum alone, each number formatted by the locale.
    A bound of 0 is handled like a missing one. *)
Theorem formatSalary_cases (toLocaleString : JS.number -> string)
    (min max : option JS.number) :
  formatSalary toLocaleString min max
  = Some (match nonzero min, nonzero max with
          | None, None => "Not specified"
          | Some a, Some b =>
              "$" +:+ toLocaleString a +:+ " - $" +:+ toLocaleString b
          | Some a, None => "$" +:+ toLocaleString a +:+ "+"
          | None, Some b => "Up to $" +:+ toLocaleString b
          end) /\
  formatSalary toLocaleString min max
  = formatSalary toLocaleString (nonzero min) (nonzero max).
Proof.
  unfold formatSalary.
  destruct min as [a|], max as [b|]; simpl;
    repeat match goal with
           | |- context [Qeq_bool ?q 0] => destruct (Qeq_bool q 0) eqn:?
           end; simpl;
    repeat match goal with
           | H : Qeq_bool _ _ = _ |- _ => rewrite H
           end; simpl; split; reflexivity.
Qed.

(** X2.  The salary line of a card shows the formatted salary exactly when
    some bound is present and not 0, and then never the text "Not
    specified"; it never throws.  With no such bound it shows nothing when
    the maximum is absent, and the bare number 0 when the maximum is 0. *)
Theorem salaryLine_cases (toLocaleString : JS.number -> string) (job : Job) :
  salaryLine toLocaleString job
  = Some (match nonzero (Job.salary_min job), nonzero (Job.salary_max job) with
          | None, None =>
              match Job.salary_max job with
              | Some q => digits q
              | None => nothing
              end
          | Some a, Some b =>
              salaryParagraph
                ("$" +:+ toLocaleString a +:+ " - $" +:+ toLocaleString b)
          | Some a, None => salaryParagraph ("$" +:+ toLocaleString a +:+ "+")
          | None, Some b => salaryParagraph ("Up to $" +:+ toLocaleString b)
          end) /\
  salaryLine toLocaleString job <> Some (salaryParagraph "Not specified") /\
  (forall q, salaryLine toLocaleString job = Some (digits q) -> (q == 0)%Q).
Proof.
  assert (E : salaryLine toLocaleString job
    = Some (match nonzero (Job.salary_min job), nonzero (Job.salary_max job) with
          | None, None =>
              match Job.salary_max job with
              | Some q => digits q
              | None => nothing
              end
          | Some a, Some b =>
              salaryParagraph
                ("$" +:+ toLocaleString a +:+ " - $" +:+ toLocaleString b)
          | Some a, None => salaryParagraph ("$" +:+ toLocaleString a +:+ "+")
          | None, Some b => salaryParagraph ("Up to $" +:+ toLocaleString b)
          end)).
  { unfold salaryLine, or_else.
    rewrite (proj1 (formatSalary_cases toLocaleString _ _)).
    rewrite !truthy_nonzero.
    destruct (Job.salary_min job) as [a|], (Job.salary_max job) as [b|]; simpl;
      repeat match goal with
             | |- context [Qeq_bool ?q 0] => destruct (Qeq_bool q 0) eqn:?
             end; simpl;
      repeat match goal with
             | H : Qeq_bool _ _ = _ |- _ => rewrite H
             end; simpl; reflexivity. }
  split; [exact E|]. rewrite E. split.
  - destruct (nonzero (Job.salary_min job)), (nonzero (Job.salary_max job));
      try discriminate.
    destruct (Job.salary_max job); discriminate.
  - intros q H.
    destruct (nonzero (Job.salary_min job)) eqn:Emin,
             (nonzero (Job.salary_max job)) eqn:Emax; try discriminate H.
    destruct (Job.salary_max job) as [b|]; [|discriminate H].
    injection H as <-. simpl in Emax.
    destruct (Qeq_bool b 0) eqn:Eb; [|discriminate Emax].
    now apply Qeq_bool_iff.
Qed.

Lemma Math_round_near (x : Q) :
  (x - (1 # 2) < inject_Z (Math_round x) <= x + (1 # 2))%Q.
Proof.
  unfold Math_round.
  pose proof (Qfloor_le (x + (1 # 2))) as Hle.
  pose proof (Qlt_floor (x + (1 # 2))) as Hlt.
  rewrite inject_Z_plus in Hlt. change (inject_Z 1) with 1%Q in Hlt.
  split; lra.
Qed.

(** X3.  The match badge of a card is shown exactly when the score is
    present and not 0; its percentage is the score rounded to the nearest
    integer (at most one half away), so a score from 0 to 100 gives a
    percentage from 0 to 100.  A score of 0 puts the bare number 0 on the
    card, and a missing score nothing. *)
Theorem matchBadge_cases (job : Job) :
  matchBadge job
  = match nonzero (Job.match_score job) with
    | Some q => scoreBadge (Math_round q)
    | None =>
        match Job.match_score job with
        | Some q => digits q
        | None => nothing
        end
    end /\
  (forall p, matchBadge job = scoreBadge p ->
     exists q, Job.match_score job = Some q /\
       (q - (1 # 2) < inject_Z p <= q + (1 # 2))%Q /\
       ((0 <= q <= 100)%Q -> 0 <= p <= 100)).
Proof.
  unfold matchBadge.
  destruct (Job.match_score job) as [q|]; simpl.
  - destruct (Qeq_bool q 0) eqn:E; simpl.
    + split; [reflexivity|]. intros p H. discriminate H.
    + split; [reflexivity|]. intros p H. injection H as <-.
      exists q. split; [reflexivity|].
      pose proof (Math_round_near q) as Hn. split; [exact Hn|].
      intros Hq.
      assert (H0 : (inject_Z (-1) < inject_Z (Math_round q))%Q)
        by (change (inject_Z (-1)) with (-1)%Q; lra).
      assert (H1 : (inject_Z (Math_round q) < inject_Z 101)%Q)
        by (change (inject_Z 101) with 101%Q; lra).
      rewrite <- Zlt_Qlt in H0, H1. lia.
  - split; [reflexivity|]. intros p H. discriminate H.
Qed.
(* ===================================================================== *)
(** * Paging: the range label, page sizes, the arrows                     *)
(* ===================================================================== *)

Lemma paginatedJobs_from_1 (l : list Job) (p : Z) :
  1 <= p ->
  paginatedJobs l p = take 10 (drop (10 * Z.to_nat (p - 1)) l).
Proof.
  intros Hp. replace p with (Z.of_nat (Z.to_nat (p - 1)) + 1) at 1 by lia.
  apply paginatedJobs_chunk.
Qed.

(** X4.  A page index of 1 or more selects the ten items from position
    [10 (p - 1)] on: the page holds [min 10 (N - 10 (p - 1))] items, none
    when that is negative, so it is empty exactly when the index is beyond
    the page count.  Nothing is clamped and nothing fails. *)
Theorem paginatedJobs_size (sorted : list Job) (p : Z) :
  1 <= p ->
  Z.of_nat (length (paginatedJobs sorted p))
  = Z.max 0 (Z.min 10 (Z.of_nat (length sorted) - 10 * (p - 1))) /\
  (paginatedJobs sorted p = [] <-> totalPages sorted < p).
Proof.
  intros Hp. rewrite (paginatedJobs_from_1 _ _ Hp).
  pose proof (totalPages_ceiling sorted) as HT.
  assert (Hlen : Z.of_nat (length (take 10 (drop (10 * Z.to_nat (p - 1)) sorted)))
                 = Z.max 0 (Z.min 10 (Z.of_nat (length sorted) - 10 * (p - 1))))
    by (rewrite length_take, length_drop; lia).
  split; [exact Hlen|].
  split.
  - intros E. rewrite E in Hlen. simpl in Hlen. lia.
  - intros Hlt. apply length_zero_iff_nil. lia.
Qed.

Lemma paginatedJobs_size_witness :
  1 <= 3 /\
  Z.of_nat (length (paginatedJobs (sampleJobs 23) 3)) = 3 /\
  Z.of_nat (length (paginatedJobs (sampleJobs 23) 4)) = 0.
Proof.
  assert (H3 : 1 <= 3) by lia. assert (H4 : 1 <= 4) by lia.
  split; [exact H3|]. split.
  - exact (proj1 (paginatedJobs_size (sampleJobs 23) 3 H3)).
  - exact (proj1 (paginatedJobs_size (sampleJobs 23) 4 H4)).
Defined.

(** X5.  On a page within 1 and the page count, the label "Showing
    first-last" names the items the page holds: [first <= last], the page
    has [last - first + 1] items, and they are the items [first] to [last]
    of the sorted list, counted from 1. *)
Theorem showingRange_matches_page (sorted : list Job) (p first last : Z) :
  1 <= p <= totalPages sorted ->
  showingRange sorted p = Some (first, last) ->
  first = 10 * (p - 1) + 1 /\
  first <= last /\
  Z.of_nat (length (paginatedJobs sorted p)) = last - first + 1 /\
  paginatedJobs sorted p
  = take (Z.to_nat (last - first + 1)) (drop (Z.to_nat (first - 1)) sorted).
Proof.
  intros Hp H. unfold showingRange, itemsPerPage in H.
  destruct (10 <? Z.of_nat (length sorted)); [|discriminate H].
  injection H as <- <-.
  pose proof (totalPages_ceiling sorted) as HT.
  pose proof (paginatedJobs_size sorted p (proj1 Hp)) as [Hlen _].
  split; [lia|]. split; [lia|]. split; [lia|].
  rewrite (paginatedJobs_from_1 _ _ (proj1 Hp)).
  replace (Z.to_nat ((p - 1) * 10 + 1 - 1)) with (10 * Z.to_nat (p - 1))%nat
    by lia.
  destruct (Z_le_gt_dec (p * 10) (Z.of_nat (length sorted))).
  - f_equal. lia.
  - rewrite !take_ge; [reflexivity| |]; rewrite length_drop; lia.
Qed.

Lemma showingRange_matches_page_witness :
  1 <= 3 <= totalPages (sampleJobs 23) /\
  showingRange (sampleJobs 23) 3 = Some (21, 23) /\
  Z.of_nat (length (paginatedJobs (sampleJobs 23) 3)) = 23 - 21 + 1.
Proof.
  assert (H1 : 1 <= 3 <= totalPages (sampleJobs 23))
    by (vm_compute; split; discriminate).
  assert (H2 : showingRange (sampleJobs 23) 3 = Some (21, 23)) by reflexivity.
  split; [exact H1|]. split; [exact H2|].
  exact (proj1 (proj2 (proj2
           (showingRange_matches_page (sampleJobs 23) 3 21 23 H1 H2)))).
Defined.

(** X6.  The pager and the "Showing" label appear together: each is
    rendered exactly when there are more than 10 results. *)
Theorem pager_and_label_together (dateTime : string -> option Z) (st : State) :
  (pagerShown dateTime st = true <-> (10 < length (jobs st))%nat) /\
  (is_Some (showingRange (sortedJobs dateTime (jobs st) (sortBy st))
              (currentPage st))
   <-> (10 < length (jobs st))%nat).
Proof.
  pose proof (totalPages_ceiling (sortedJobs dateTime (jobs st) (sortBy st)))
    as HT.
  rewrite sortedJobs_length in HT.
  split.
  - unfold pagerShown, resultsShown, totalPagesOf.
    rewrite andb_true_iff, negb_true_iff, Nat.eqb_neq, Z.ltb_lt. lia.
  - unfold showingRange, itemsPerPage. rewrite sortedJobs_length.
    destruct (Z.ltb_spec 10 (Z.of_nat (length (jobs st)))).
    + split; [lia|]. intros _. eexists. reflexivity.
    + split; [intros [x Hx]; discriminate Hx|lia].
Qed.

Lemma step_click_next (dateTime : string -> option Z) (st : State) :
  currentPage (step dateTime st click_next)
  = Z.min (totalPagesOf dateTime st) (currentPage st + 1) /\
  totalPagesOf dateTime (step dateTime st click_next) = totalPagesOf dateTime st.
Proof. split; reflexivity. Qed.

Lemma step_click_prev (dateTime : string -> option Z) (st : State) :
  currentPage (step dateTime st click_prev) = Z.max 1 (currentPage st - 1) /\
  totalPagesOf dateTime (step dateTime st click_prev) = totalPagesOf dateTime st.
Proof. split; reflexivity. Qed.

(** X7.  From a page within 1 and the page count, [k] clicks on the next
    arrow lead to page [min T (p + k)] and [k] clicks on the previous arrow
    to page [max 1 (p - k)], [T] being the page count: the arrows reach every
    page and stop at the ends.  Below the last page, next followed by
    previous comes back to the same page. *)
Theorem arrows_walk (dateTime : string -> option Z) (st : State) (k : nat) :
  pageInRange dateTime st ->
  let T := totalPagesOf dateTime st in
  let p := currentPage st in
  currentPage (after dateTime st (replicate k click_next))
  = Z.min T (p + Z.of_nat k) /\
  currentPage (after dateTime st (replicate k click_prev))
  = Z.max 1 (p - Z.of_nat k) /\
  (p < T -> currentPage (after dateTime st [click_next; click_prev]) = p).
Proof.
  intros Hp T p. unfold pageInRange in Hp. fold T p in Hp. split; [|split].
  - assert (G : forall s, totalPagesOf dateTime s = T ->
                 1 <= currentPage s <= T ->
                 currentPage (after dateTime s (replicate k click_next))
                 = Z.min T (currentPage s + Z.of_nat k)).
    { induction k as [|k IH]; intros s HT Hs.
      - simpl. lia.
      - cbn [replicate after foldl]. fold (after dateTime).
        destruct (step_click_next dateTime s) as [Hc Ht].
        unfold after in IH. rewrite IH; rewrite ?Ht, ?Hc, ?HT; lia. }
    apply G; [reflexivity|exact Hp].
  - assert (G : forall s, 1 <= currentPage s ->
                 currentPage (after dateTime s (replicate k click_prev))
                 = Z.max 1 (currentPage s - Z.of_nat k)).
    { induction k as [|k IH]; intros s Hs.
      - simpl. lia.
      - cbn [replicate after foldl].
        destruct (step_click_prev dateTime s) as [Hc _].
        unfold after in IH. rewrite IH; rewrite ?Hc; lia. }
    apply G. lia.
  - intros Hlt. cbn [after foldl].
    destruct (step_click_prev dateTime (step dateTime st click_next)) as [Hc _].
    rewrite Hc. destruct (step_click_next dateTime st) as [Hn _].
    rewrite Hn. fold T p. lia.
Qed.

Lemma arrows_walk_witness :
  pageInRange sampleDate (sampleState (sampleJobs 23) 1) /\
  currentPage (after sampleDate (sampleState (sampleJobs 23) 1)
                 (replicate 5 click_next)) = 3.
Proof.
  assert (H : pageInRange sampleDate (sampleState (sampleJobs 23) 1))
    by (vm_compute; split; discriminate).
  split; [exact H|].
  exact (proj1 (arrows_walk sampleDate _ 5 H)).
Defined.
(* ===================================================================== *)
(** * What every run of events keeps                                      *)
(* ===================================================================== *)




Lemma step_page_lower (dateTime : string -> option Z) (st : State)
    (ev : Event) :
  offered dateTime st ev = true -> 1 <= currentPage st ->
  1 <= currentPage (step dateTime st ev).
Proof.
  intros Hoff Hp. destruct ev; cbn [step handle] in *;
    rewrite ?handleSearch_cases;
    unfold toggleSaveJob, handleApplySubmit;
    repeat match goal with
           | |- context [blank ?s] => destruct (blank s)
           | |- context [decide ?P] => destruct (decide P)
           | |- context [applyingJobId st] => destruct (applyingJobId st)
           | |- context [bool_decide ?P] => destruct (bool_decide P)
           end;
    cbn; try lia.
  - (* click_page *)
    cbn [offered] in Hoff. apply andb_prop in Hoff as [_ Hin].
    apply bool_decide_eq_true in Hin. apply list_elem_of_In in Hin.
    apply pageButtons_range in Hin. lia.
  - (* click_next *)
    cbn [offered] in Hoff. apply andb_prop in Hoff as [Hpager _].
    apply andb_prop in Hpager as [_ HT]. apply Z.ltb_lt in HT.
    fold (totalPagesOf dateTime st). lia.
Qed.

(** X8.  In every session from the first render, the page index is at
    least 1: no control and no arrival of data takes it below the first
    page. *)
Theorem page_at_least_1 (dateTime : string -> option Z) (evs : list Event)
    (st : State) :
  session dateTime initialState evs = Some st -> 1 <= currentPage st.
Proof.
  assert (G : forall s, 1 <= currentPage s ->
                session dateTime s evs = Some st -> 1 <= currentPage st).
  { induction evs as [|ev evs IH]; intros s Hs H; simpl in H.
    - now injection H as <-.
    - destruct (offered dateTime s ev) eqn:Hoff; [|discriminate H].
      apply (IH (step dateTime s ev)); [|exact H].
      now apply step_page_lower. }
  apply G. simpl. lia.
Qed.

Lemma page_at_least_1_witness :
  session sampleDate initialState
    [change_keywords (JS.units "engineer"); submit_search;
     query_data (sampleJobs 12); click_next; click_prev]
  = Some (sampleState (sampleJobs 12) 1) /\
  1 <= currentPage (sampleState (sampleJobs 12) 1).
Proof.
  assert (H : session sampleDate initialState
                [change_keywords (JS.units "engineer"); submit_search;
                 query_data (sampleJobs 12); click_next; click_prev]
              = Some (sampleState (sampleJobs 12) 1))
    by (vm_compute; reflexivity).
  split; [exact H|exact (page_at_least_1 sampleDate _ _ H)].
Defined.



Lemma step_modal_cells (dateTime : string -> option Z) (st : State)
    (ev : Event) :
  let st' := step dateTime st ev in
  (showApplyModal st' = showApplyModal st /\
   applyingJobId st' = applyingJobId st /\ applyNotes st' = applyNotes st) \/
  (exists v, ev = change_applyNotes v /\ showApplyModal st' = showApplyModal st /\
     applyingJobId st' = applyingJobId st) \/
  (showApplyModal st' = true /\ is_Some (applyingJobId st') /\
   applyNotes st' = applyNotes st) \/
  (showApplyModal st' = false /\ applyingJobId st' = None /\
   applyNotes st' = "").
Proof.
  destruct ev; cbn [step handle]; rewrite ?handleSearch_cases;
    unfold toggleSaveJob, handleApplySubmit;
    repeat match goal with
           | |- context [blank ?s] => destruct (blank s)
           | |- context [decide ?P] => destruct (decide P)
           | |- context [match applyingJobId st with _ => _ end] =>
               destruct (applyingJobId st) eqn:?
           | |- context [bool_decide ?P] => destruct (bool_decide P)
           end;
    cbn;
    first [ left; repeat split; first [reflexivity | assumption]
          | right; left; eexists; repeat split; reflexivity
          | right; right; left; repeat split; eexists; reflexivity
          | right; right; right; repeat split; reflexivity ].
Qed.

Lemma step_modal (dateTime : string -> option Z) (st : State) (ev : Event) :
  (showApplyModal st = true <-> is_Some (applyingJobId st)) ->
  (showApplyModal (step dateTime st ev) = true
   <-> is_Some (applyingJobId (step dateTime st ev))).
Proof.
  intros H.
  destruct (step_modal_cells dateTime st ev)
    as [(-> & -> & _)|[(v & _ & -> & ->)|[(-> & Hs & _)|(-> & -> & _)]]].
  - exact H.
  - exact H.
  - tauto.
  - split; [discriminate|intros [x Hx]; discriminate Hx].
Qed.

(** X10.  After any run of events from the first render, the apply modal
    is open exactly when a job is selected for applying. *)
Theorem modal_open_iff_job_selected (dateTime : string -> option Z)
    (evs : list Event) :
  showApplyModal (after dateTime initialState evs) = true
  <-> is_Some (applyingJobId (after dateTime initialState evs)).
Proof.
  unfold after. induction evs as [|ev evs IH] using rev_ind.
  - simpl. split; [discriminate|intros [x Hx]; discriminate Hx].
  - rewrite foldl_snoc. now apply step_modal.
Qed.

Lemma step_closed_modal (dateTime : string -> option Z) (st : State)
    (ev : Event) :
  offered dateTime st ev = true ->
  (showApplyModal st = false -> applyNotes st = "") ->
  (showApplyModal (step dateTime st ev) = false ->
   applyNotes (step dateTime st ev) = "").
Proof.
  intros Hoff H.
  destruct (step_modal_cells dateTime st ev)
    as [(-> & _ & ->)|[(v & -> & -> & _)|[(-> & _ & _)|(_ & _ & ->)]]].
  - exact H.
  - cbn [offered] in Hoff. rewrite Hoff. discriminate.
  - discriminate.
  - reflexivity.
Qed.

(** X11.  In every session from the first render, a closed apply modal
    holds no note: whenever the modal is closed, clicking Apply on a job
    opens it for that job with an empty note, whatever was typed into an
    earlier modal. *)
Theorem modal_opens_empty (dateTime : string -> option Z) (evs : list Event)
    (st : State) (jobId : string) :
  session dateTime initialState evs = Some st ->
  showApplyModal st = false ->
  let st' := step dateTime st (click_apply jobId) in
  showApplyModal st' = true /\ applyingJobId st' = Some jobId /\
  applyNotes st' = "".
Proof.
  intros Hs Hclosed st'.
  assert (G : forall s, (showApplyModal s = false -> applyNotes s = "") ->
                session dateTime s evs = Some st ->
                showApplyModal st = false -> applyNotes st = "").
  { clear Hs Hclosed st'.
    induction evs as [|ev evs IH]; intros s Hinv H; simpl in H.
    - now injection H as <-.
    - destruct (offered dateTime s ev) eqn:Hoff; [|discriminate H].
      apply (IH (step dateTime s ev)); [|exact H].
      now apply step_closed_modal. }
  repeat split. unfold st'. cbn.
  apply (G initialState); [reflexivity|exact Hs|exact Hclosed].
Qed.

Lemma modal_opens_empty_witness :
  exists st,
    session sampleDate initialState
      [change_keywords (JS.units "engineer"); submit_search;
       query_data (sampleJobs 3); click_apply "1";
       change_applyNotes "my note"; click_cancel] = Some st /\
    showApplyModal st = false /\
    applyNotes (step sampleDate st (click_apply "2")) = "".
Proof.
  eexists.
  refine ((fun H1 H2 => conj H1 (conj H2
            (proj2 (proj2 (modal_opens_empty sampleDate _ _ "2" H1 H2))))) _ _).
  - vm_compute. reflexivity.
  - reflexivity.
Defined.

(** X12.  Apply on a job, a note typed into the modal, Submit: exactly one
    create-application request goes out, for that job, with status
    "applied" and with the note as typed. *)
Theorem apply_flow (dateTime : string -> option Z) (st : State)
    (jobId note : string) :
  jobId <> "" ->
  handle dateTime
    (after dateTime st [click_apply jobId; change_applyNotes note])
    click_submitApplication
  = [mutate {| job_id := jobId; status := Some "applied";
               notes := Some note; tags := None |}].
Proof.
  intros Hne. cbn. unfold handleApplySubmit. cbn.
  now rewrite bool_decide_eq_false_2.
Qed.

Lemma apply_flow_witness :
  "c" <> "" /\
  handle sampleDate
    (after sampleDate initialState [click_apply "c"; change_applyNotes "hello"])
    click_submitApplication
  = [mutate {| job_id := "c"; status := Some "applied";
               notes := Some "hello"; tags := None |}].
Proof.
  assert (H : "c" <> "") by discriminate.
  split; [exact H|]. exact (apply_flow sampleDate initialState "c" "hello" H).
Defined.

(** X13.  Once an application has succeeded, or the modal was cancelled,
    the modal is closed and a further Submit sends nothing: no second
    request goes out until Apply is clicked on a job again. *)
Theorem no_submit_after_close (dateTime : string -> option Z) (st : State) :
  handleApplySubmit (step dateTime st mutation_success) = [] /\
  handleApplySubmit (step dateTime st click_cancel) = [] /\
  showApplyModal (step dateTime st mutation_success) = false /\
  showApplyModal (step dateTime st click_cancel) = false /\
  (forall evs,
     existsb (fun ev => match ev with click_apply _ => true | _ => false end)
       evs = false ->
     handleApplySubmit (after dateTime (step dateTime st mutation_success) evs)
     = []).
Proof.
  repeat split.
  intros evs.
  assert (G : forall s, applyingJobId s = None ->
     existsb (fun ev => match ev with click_apply _ => true | _ => false end)
       evs = false ->
     handleApplySubmit (after dateTime s evs) = []).
  { induction evs as [|ev evs IH]; intros s Hs H.
    - unfold handleApplySubmit. simpl. now rewrite Hs.
    - simpl in H. apply orb_false_elim in H as [Hev H].
      cbn [after foldl]. apply IH; [|exact H].
      destruct (step_modal_cells dateTime s ev)
        as [(_ & -> & _)|[(v & _ & _ & ->)|[(_ & Hsome & _)|(_ & -> & _)]]];
        try assumption; try reflexivity.
      destruct ev; try discriminate Hev; revert Hsome; cbn [step handle];
        rewrite ?handleSearch_cases; unfold toggleSaveJob, handleApplySubmit;
        repeat match goal with
               | |- context [blank ?s] => destruct (blank s)
               | |- context [decide ?P] => destruct (decide P)
               | |- context [bool_decide ?P] => destruct (bool_decide P)
               end;
        rewrite ?Hs; cbn; rewrite ?Hs;
        try (intros [x Hx]; discriminate Hx); reflexivity. }
  apply G. reflexivity.
Qed.


(* ===================================================================== *)
(** * Saved jobs over a run of events                                     *)
(* ===================================================================== *)

Lemma step_savedJobs (dateTime : string -> option Z) (st : State)
    (ev : Event) (jobId : string) :
  bool_decide (jobId ∈ savedJobs (step dateTime st ev))
  = xorb (bool_decide (jobId ∈ savedJobs st))
         (match ev with
          | click_save j => bool_decide (j = jobId)
          | _ => false
          end).
Proof.
  destruct ev; cbn [step handle]; rewrite ?handleSearch_cases;
    unfold handleApplySubmit;
    repeat match goal with
           | |- context [blank ?s] => destruct (blank s)
           | |- context [match applyingJobId st with _ => _ end] =>
               destruct (applyingJobId st)
           | |- context [if bool_decide ?P then _ else _] =>
               destruct (bool_decide P)
           end;
    cbn; rewrite ?xorb_false_r; try reflexivity.
  (* the save button of job [jobId0] *)
  rewrite toggleSaveJob_savedJobs.
  destruct (decide (jobId0 = jobId)) as [->|Hne].
  - rewrite (bool_decide_eq_true_2 (jobId = jobId)) by reflexivity.
    destruct (decide (jobId ∈ savedJobs st)) as [Hin|Hout].
    + rewrite !(bool_decide_eq_true_2 _ Hin). simpl.
      apply bool_decide_eq_false_2.
      rewrite elem_of_difference, elem_of_singleton. tauto.
    + rewrite !(bool_decide_eq_false_2 _ Hout). simpl.
      apply bool_decide_eq_true_2.
      rewrite elem_of_union, elem_of_singleton. tauto.
  - rewrite (bool_decide_eq_false_2 (jobId0 = jobId)) by exact Hne.
    rewrite xorb_false_r. apply bool_decide_ext.
    destruct (bool_decide (jobId0 ∈ savedJobs st)).
    + rewrite elem_of_difference, elem_of_singleton. split; [tauto|].
      intros H. split; [exact H|]. congruence.
    + rewrite elem_of_union, elem_of_singleton. split; [|tauto].
      intros [H|H]; [exact H|congruence].
Qed.

(** X15.  After any run of events from the first render, a job is in the
    saved set exactly when its save button was clicked an odd number of
    times; nothing else (searching, new results, sorting, paging, applying,
    Clear) adds to the set or removes from it. *)
Theorem saved_iff_odd_clicks (dateTime : string -> option Z)
    (evs : list Event) (jobId : string) :
  jobId ∈ savedJobs (after dateTime initialState evs)
  <-> Nat.odd (saveClicks jobId evs) = true.
Proof.
  assert (G : forall s,
    bool_decide (jobId ∈ savedJobs (after dateTime s evs))
    = xorb (bool_decide (jobId ∈ savedJobs s))
           (Nat.odd (saveClicks jobId evs))).
  { unfold after, saveClicks.
    induction evs as [|ev evs IH]; intros s.
    - simpl. now rewrite xorb_false_r.
    - cbn [foldl List.filter]. rewrite IH, step_savedJobs.
      destruct ev; rewrite ?xorb_false_r; try reflexivity.
      destruct (bool_decide (jobId0 = jobId)).
      + cbn [length]. rewrite Nat.odd_succ, <- Nat.negb_odd.
        destruct (bool_decide (jobId ∈ savedJobs s)),
                 (Nat.odd (length _)); reflexivity.
      + now rewrite xorb_false_r. }
  specialize (G initialState).
  rewrite (bool_decide_eq_false_2 (jobId ∈ savedJobs initialState)) in G
    by (cbn; apply not_elem_of_empty).
  rewrite xorb_false_l in G. rewrite <- G.
  symmetry. apply bool_decide_eq_true.
Qed.

(** X16.  Requests leave the page from three handlers only: a fetch from
    a search submission with keywords that are not blank, a
    create-application request from the modal's Submit, and the
    invalidation of the ["applications"] queries from a successful
    application.  Every other control, the save button among them, calls no
    request: saving stays local to the page. *)
Theorem requests_only_from (dateTime : string -> option Z) (st : State)
    (ev : Event) (op : Op) :
  In op (handle dateTime st ev) ->
  isRequest op = true ->
  (op = refetch /\ ev = submit_search /\ blank (keywords st) = false) \/
  (exists data, op = mutate data /\ ev = click_submitApplication /\
     applyingJobId st = Some (job_id data)) \/
  (op = invalidateQueries ["applications"] /\ ev = mutation_success).
Proof.
  intros Hin Hreq. destruct op; try discriminate Hreq.
  - left. apply refetch_only_in_handleSearch in Hin as [-> Hb]. auto.
  - right; left. exists data.
    apply mutate_only_in_handleApplySubmit in Hin as (-> & Hid & _). auto.
  - right; right. destruct ev; cbn [handle] in Hin;
      rewrite ?handleSearch_cases in Hin;
      unfold toggleSaveJob, handleApplySubmit in Hin;
      repeat match type of Hin with
             | context [blank ?s] => destruct (blank s)
             | context [decide ?P] => destruct (decide P)
             | context [match applyingJobId st with _ => _ end] =>
                 destruct (applyingJobId st)
             | context [bool_decide ?P] => destruct (bool_decide P)
             end;
      cbn in Hin;
      repeat (destruct Hin as [Hin|Hin]; try discriminate Hin);
      try contradiction.
    injection Hin as <-. auto.
Qed.

Lemma requests_only_from_witness :
  In (invalidateQueries ["applications"])
    (handle sampleDate initialState mutation_success) /\
  isRequest (invalidateQueries ["applications"]) = true /\
  ((invalidateQueries ["applications"] = refetch /\
    mutation_success = submit_search /\
    blank (keywords initialState) = false) \/
   (exists data, invalidateQueries ["applications"] = mutate data /\
      mutation_success = click_submitApplication /\
      applyingJobId initialState = Some (job_id data)) \/
   (invalidateQueries ["applications"] = invalidateQueries ["applications"] /\
    mutation_success = mutation_success)).
Proof.
  assert (H1 : In (invalidateQueries ["applications"])
                 (handle sampleDate initialState mutation_success))
    by (cbn; tauto).
  assert (H2 : isRequest (invalidateQueries ["applications"]) = true)
    by reflexivity.
  split; [exact H1|]. split; [exact H2|].
  exact (requests_only_from sampleDate initialState _ _ H1 H2).
Defined.

Lemma step_hasSearched (dateTime : string -> option Z) (st : State)
    (ev : Event) :
  hasSearched (step dateTime st ev) = true ->
  hasSearched st = true \/ (ev = submit_search /\ blank (keywords st) = false).
Proof.
  destruct ev; cbn [step handle]; rewrite ?handleSearch_cases;
    unfold toggleSaveJob, handleApplySubmit;
    repeat match goal with
           | |- context [blank ?s] => destruct (blank s) eqn:?
           | |- context [decide ?P] => destruct (decide P)
           | |- context [match applyingJobId st with _ => _ end] =>
               destruct (applyingJobId st)
           | |- context [bool_decide ?P] => destruct (bool_decide P)
           end;
    cbn; auto; discriminate.
Qed.

(** X17.  The "No jobs found" message and the result list are never on the
    page together, nor the message and the spinner; and in every session
    from the first render the message is shown only if a search was
    submitted earlier in the session. *)
Theorem noJobs_only_after_search (dateTime : string -> option Z) :
  (forall st isLoading,
     noJobsShown st isLoading && resultsShown st = false /\
     noJobsShown st isLoading && spinnerShown isLoading = false) /\
  (forall evs st isLoading,
     session dateTime initialState evs = Some st ->
     noJobsShown st isLoading = true ->
     In submit_search evs).
Proof.
  split.
  - intros st isLoading. unfold noJobsShown, resultsShown, spinnerShown.
    destruct (hasSearched st), isLoading, (Nat.eqb (length (jobs st)) 0);
      split; reflexivity.
  - intros evs st isLoading Hs Hshown.
    assert (Hh : hasSearched st = true).
    { unfold noJobsShown in Hshown.
      destruct (hasSearched st); [reflexivity|discriminate Hshown]. }
    clear Hshown.
    assert (G : forall s, session dateTime s evs = Some st ->
                  hasSearched st = true ->
                  hasSearched s = true \/ In submit_search evs).
    { clear Hs Hh. induction evs as [|ev evs IH]; intros s H Hst; simpl in H.
      - injection H as <-. now left.
      - destruct (offered dateTime s ev); [|discriminate H].
        destruct (IH _ H Hst) as [Hstep|Hin]; [|right; now right].
        apply step_hasSearched in Hstep as [Hs|[-> _]];
          [now left|right; now left]. }
    destruct (G initialState Hs Hh) as [H|H]; [discriminate H|exact H].
Qed.

Lemma noJobs_only_after_search_witness :
  session sampleDate initialState
    [change_keywords (JS.units "engineer"); submit_search; query_data []]
  = Some (sampleState [] 1) /\
  noJobsShown (sampleState [] 1) false = true /\
  In submit_search
    [change_keywords (JS.units "engineer"); submit_search; query_data []].
Proof.
  assert (H1 : session sampleDate initialState
                 [change_keywords (JS.units "engineer"); submit_search;
                  query_data []] = Some (sampleState [] 1))
    by (vm_compute; reflexivity).
  assert (H2 : noJobsShown (sampleState [] 1) false = true) by reflexivity.
  split; [exact H1|]. split; [exact H2|].
  exact (proj2 (noJobs_only_after_search sampleDate) _ _ _ H1 H2).
Defined.

(* ===================================================================== *)
(** * Ranking: ties and re-sorting                                        *)
(* ===================================================================== *)

Lemma keyed_Permutation {A : Type} (comparefn : A -> A -> option JS.number)
    (key : A -> Q) (l l' : list A) :
  Permutation l l' -> keyed comparefn key l -> keyed comparefn key l'.
Proof.
  intros Hp Hk x y Hx Hy.
  apply Hk; eapply Permutation_in; try eassumption; now symmetry.
Qed.

Lemma sort_idempotent {A : Type} (comparefn : A -> A -> option JS.number)
    (key : A -> Q) (l : list A) :
  keyed comparefn key l ->
  JS.sort comparefn (JS.sort comparefn l) = JS.sort comparefn l.
Proof.
  intros Hk. symmetry.
  apply (sort_determined comparefn key).
  - eapply keyed_Permutation; [|exact Hk]. symmetry. apply sort_Permutation.
  - now apply sort_descending.
  - reflexivity.
Qed.

(** X18.  Jobs that tie on the sort key keep the order in which the search
    returned them: for each value of the key, the jobs with that value come
    out of [sortedJobs] in their input order (salary and relevance modes
    always, date mode when the dates present parse). *)
Theorem sortedJobs_ties_keep_order (dateTime : string -> option Z)
    (jobs : list Job) (k : Q) :
  withKey salaryKey k (sortedJobs dateTime jobs salary)
  = withKey salaryKey k jobs /\
  withKey scoreKey k (sortedJobs dateTime jobs relevance)
  = withKey scoreKey k jobs /\
  (datesParse dateTime jobs ->
   withKey (epochKey dateTime) k (sortedJobs dateTime jobs date)
   = withKey (epochKey dateTime) k jobs).
Proof.
  split; [|split].
  - apply sort_stable, bySalary_keyed.
  - apply sort_stable, byRelevance_keyed.
  - intros H. now apply sort_stable, byDate_keyed.
Qed.

Lemma sortedJobs_ties_keep_order_witness :
  datesParse sampleDate [undatedJob; oldJob; januaryJob; marchJob] /\
  withKey (epochKey sampleDate) 0
    (sortedJobs sampleDate [undatedJob; oldJob; januaryJob; marchJob] date)
  = withKey (epochKey sampleDate) 0 [undatedJob; oldJob; januaryJob; marchJob].
Proof.
  assert (H : datesParse sampleDate [undatedJob; oldJob; januaryJob; marchJob])
    by (repeat constructor; eexists; reflexivity).
  split; [exact H|].
  exact (proj2 (proj2 (sortedJobs_ties_keep_order sampleDate _ 0)) H).
Defined.

(** X19.  Sorting a list that [sortedJobs] produced, in the same mode,
    changes nothing (date mode: when the dates present parse). *)
Theorem sortedJobs_idempotent (dateTime : string -> option Z)
    (jobs : list Job) :
  sortedJobs dateTime (sortedJobs dateTime jobs salary) salary
  = sortedJobs dateTime jobs salary /\
  sortedJobs dateTime (sortedJobs dateTime jobs relevance) relevance
  = sortedJobs dateTime jobs relevance /\
  (datesParse dateTime jobs ->
   sortedJobs dateTime (sortedJobs dateTime jobs date) date
   = sortedJobs dateTime jobs date).
Proof.
  split; [|split].
  - apply (sort_idempotent _ salaryKey), bySalary_keyed.
  - apply (sort_idempotent _ scoreKey), byRelevance_keyed.
  - intros H. now apply (sort_idempotent _ (epochKey dateTime)), byDate_keyed.
Qed.

Lemma sortedJobs_idempotent_witness :
  datesParse sampleDate [undatedJob; oldJob; januaryJob; marchJob] /\
  sortedJobs sampleDate
    (sortedJobs sampleDate [undatedJob; oldJob; januaryJob; marchJob] date) date
  = sortedJobs sampleDate [undatedJob; oldJob; januaryJob; marchJob] date.
Proof.
  assert (H : datesParse sampleDate [undatedJob; oldJob; januaryJob; marchJob])
    by (repeat constructor; eexists; reflexivity).
  split; [exact H|].
  exact (proj2 (proj2 (sortedJobs_idempotent sampleDate _)) H).
Defined.

(* ===================================================================== *)
(** * The search request                                                  *)
(* ===================================================================== *)

(** X20.  Whenever a search is issued, the request carries the keywords as
    typed, white space around them included (only the check trims), and
    they hold a code unit that is not white space.  In every state, an
    optional filter is left out exactly when its field is empty, so no
    filter is ever sent as an empty string. *)
Theorem search_request_parameters (parseInt : string -> option Z)
    (st : State) :
  (In refetch (handleSearch st) ->
   SearchParams.keywords (queryFn parseInt st) = keywords st /\
   blank (SearchParams.keywords (queryFn parseInt st)) = false) /\
  (SearchParams.location (queryFn parseInt st) = None <-> location st = "") /\
  (SearchParams.job_type (queryFn parseInt st) = None <-> jobType st = "") /\
  (SearchParams.min_salary (queryFn parseInt st) = None <-> minSalary st = "") /\
  (SearchParams.max_salary (queryFn parseInt st) = None <-> maxSalary st = "") /\
  SearchParams.location (queryFn parseInt st) <> Some "" /\
  SearchParams.job_type (queryFn parseInt st) <> Some "".
Proof.
  split.
  { intros H. split; [reflexivity|].
    rewrite handleSearch_cases in H.
    destruct (blank (keywords st)) eqn:E; [|exact E].
    simpl in H. destruct H as [H|[H|[]]]; discriminate H. }
  unfold queryFn, or_undefined, parsed_or_undefined. cbn.
  destruct (decide (location st = "")), (decide (jobType st = "")),
    (decide (minSalary st = "")), (decide (maxSalary st = ""));
    repeat split; try tauto; try discriminate; try congruence.
Qed.

Lemma search_request_parameters_witness :
  In refetch (handleSearch (step sampleDate initialState
                              (change_keywords (JS.units " qa ")))) /\
  SearchParams.keywords
    (queryFn (fun _ => None)
       (step sampleDate initialState (change_keywords (JS.units " qa "))))
  = JS.units " qa ".
Proof.
  assert (H : In refetch (handleSearch (step sampleDate initialState
                            (change_keywords (JS.units " qa ")))))
    by (vm_compute; tauto).
  split; [exact H|].
  exact (proj1 (proj1 (search_request_parameters (fun _ => None) _) H)).
Defined.

(* ===================================================================== *)
(** * The [SavedJobs] page                                                *)
(* ===================================================================== *)

Lemma savedJobs_salary_keyed (dateTime : string -> option Z)
    (l : list Application.t) :
  keyed (SavedJobs.comparefn dateTime SavedJobs.salary) SavedJobs.salaryKey l.
Proof.
  intros x y _ _. unfold JS.SortCompare, SavedJobs.comparefn, SavedJobs.salaryKey.
  now rewrite !num_or_0.
Qed.

Lemma savedJobs_date_keyed (dateTime : string -> option Z)
    (l : list Application.t) :
  SavedJobs.datesParse dateTime l ->
  keyed (SavedJobs.comparefn dateTime SavedJobs.date)
    (SavedJobs.createdKey dateTime) l.
Proof.
  intros Hl x y Hx Hy. unfold SavedJobs.datesParse in Hl.
  rewrite List.Forall_forall in Hl.
  destruct (Hl x Hx) as [tx Ex], (Hl y Hy) as [ty Ey].
  unfold JS.SortCompare, SavedJobs.comparefn, SavedJobs.createdKey.
  rewrite Ex, Ey. reflexivity.
Qed.

(** X21.  On the saved-jobs page, sorting by salary lists every saved
    application once (a permutation, so the count shown is the number of
    applications), in descending order of the maximum salary of its job,
    an application without job or without maximum counting as 0; ties keep
    the order in which the applications were loaded. *)
Theorem sortedApplications_by_salary (dateTime : string -> option Z)
    (applications : list Application.t) :
  let sorted :=
    SavedJobs.sortedApplications dateTime applications SavedJobs.salary in
  Permutation sorted applications /\
  length sorted = length applications /\
  descending SavedJobs.salaryKey sorted /\
  (forall k, withKey SavedJobs.salaryKey k sorted
             = withKey SavedJobs.salaryKey k applications).
Proof.
  intros sorted. unfold sorted, SavedJobs.sortedApplications.
  split; [apply sort_Permutation|].
  split; [apply Permutation_length, sort_Permutation|].
  split; [apply sort_descending, savedJobs_salary_keyed|].
  intros k. apply sort_stable, savedJobs_salary_keyed.
Qed.

(** X22.  On the saved-jobs page, sorting by date (the default) lists every
    saved application once, and, when every creation date parses, most
    recently created first, ties in load order.  Unlike the search page there is
    no fallback date: an empty creation date is an invalid date. *)
Theorem sortedApplications_by_date (dateTime : string -> option Z)
    (applications : list Application.t) :
  let sorted :=
    SavedJobs.sortedApplications dateTime applications SavedJobs.date in
  Permutation sorted applications /\
  (SavedJobs.datesParse dateTime applications ->
   descending (SavedJobs.createdKey dateTime) sorted /\
   (forall k, withKey (SavedJobs.createdKey dateTime) k sorted
              = withKey (SavedJobs.createdKey dateTime) k applications)) /\
  (forall a b, Application.created_at a = "" ->
     SavedJobs.comparefn dateTime SavedJobs.date a b = None /\
     SavedJobs.comparefn dateTime SavedJobs.date b a = None).
Proof.
  intros sorted. unfold sorted, SavedJobs.sortedApplications.
  split; [apply sort_Permutation|]. split.
  - intros H. split.
    + now apply sort_descending, savedJobs_date_keyed.
    + intros k. now apply sort_stable, savedJobs_date_keyed.
  - intros a b E. unfold SavedJobs.comparefn, SavedJobs.getTime. rewrite E.
    simpl. split; [|reflexivity].
    now destruct (decide (Application.created_at b = "")),
                 (dateTime (Application.created_at b)).
Qed.

Lemma sortedApplications_by_date_witness :
  SavedJobs.datesParse sampleDate sampleApplications /\
  Application.id <$>
    SavedJobs.sortedApplications sampleDate sampleApplications SavedJobs.date
  = ["q"; "p"; "r"] /\
  descending (SavedJobs.createdKey sampleDate)
    (SavedJobs.sortedApplications sampleDate sampleApplications SavedJobs.date).
Proof.
  assert (H : SavedJobs.datesParse sampleDate sampleApplications)
    by (repeat constructor; eexists; reflexivity).
  split; [exact H|]. split; [reflexivity|].
  exact (proj1 (proj1 (proj2
           (sortedApplications_by_date sampleDate sampleApplications)) H)).
Defined.

(** X23.  The saved-jobs page shows exactly one of its three blocks: the
    spinner while loading, else the "No saved jobs yet" message when there
    is no application, else the list. *)
Theorem savedJobs_blocks_partition (isLoading : bool)
    (applications : list Application.t) :
  SavedJobs.blocks isLoading applications
  = [if isLoading then SavedJobs.loadingBlock
     else match applications with
          | [] => SavedJobs.emptyBlock
          | _ :: _ => SavedJobs.listBlock
          end] /\
  length (SavedJobs.blocks isLoading applications) = 1%nat.
Proof.
  unfold SavedJobs.blocks.
  destruct isLoading, applications; split; reflexivity.
Qed.

(* ===================================================================== *)
(** * The navigation bar and the routes                                   *)
(* ===================================================================== *)

(** X24.  The mobile menu of the navigation bar: the menu button toggles
    it, so two clicks leave it as it was; every link of the menu and its
    Logout button close it; the desktop controls leave it alone; and a
    user who is not authenticated is offered no control at all. *)
Theorem navbar_menu (isOpen : bool) (ev : Navbar.Event) :
  Navbar.step (Navbar.step isOpen Navbar.click_menuButton)
    Navbar.click_menuButton = isOpen /\
  Navbar.step isOpen Navbar.click_menuButton = negb isOpen /\
  (Navbar.isMenuEvent ev = true -> Navbar.step isOpen ev = false) /\
  (Navbar.isMenuEvent ev = false -> ev <> Navbar.click_menuButton ->
   Navbar.step isOpen ev = isOpen) /\
  Navbar.offered false isOpen ev = false /\
  (Navbar.offered true false ev = true -> Navbar.isMenuEvent ev = false).
Proof.
  repeat split.
  - now destruct isOpen.
  - now destruct ev.
  - intros H Hne. destruct ev; try reflexivity; try discriminate H.
    now contradiction Hne.
  - destruct ev; try reflexivity; cbn; discriminate.
Qed.

Lemma navbar_menu_witness :
  Navbar.isMenuEvent (Navbar.click_menuLink "/jobs") = true /\
  Navbar.step true (Navbar.click_menuLink "/jobs") = false.
Proof.
  assert (H : Navbar.isMenuEvent (Navbar.click_menuLink "/jobs") = true)
    by reflexivity.
  split; [exact H|].
  exact (proj1 (proj2 (proj2 (navbar_menu true _))) H).
Defined.

(** X25.  Every navigation the bar can perform lands on a page that [App]
    routes: each link, desktop or mobile, leads to a route behind
    [PrivateRoute]; Logout calls [logout] and then leads to "/login", which
    is public; and the redirect of the root route leads to a private page
    as well. *)
Theorem navbar_targets_are_routes (isOpen : bool) (ev : Navbar.Event)
    (to : string) :
  Navbar.offered true isOpen ev = true ->
  In (Navbar.navigate to) (Navbar.handle isOpen ev) ->
  (exists component private,
     routeOf to = Some (element component private) /\
     (private = false <-> to = "/login") /\
     (to = "/login" <->
      ev = Navbar.click_logout \/ ev = Navbar.click_menuLogout)) /\
  (exists target component,
     routeOf "/" = Some (navigateTo target) /\
     routeOf target = Some (element component true)).
Proof.
  intros Hoff Hin. split.
  - destruct ev; cbn in Hoff, Hin.
    + destruct Hin as [Hin|[]]. injection Hin as <-.
      exists "Dashboard", true. repeat split; try discriminate;
        intros [H|H]; discriminate H.
    + destruct Hin as [Hin|[]]. injection Hin as <-.
      apply bool_decide_eq_true in Hoff.
      repeat (apply elem_of_cons in Hoff as [->|Hoff]);
        [| | | | |now apply elem_of_nil in Hoff];
        eexists _, true; (split; [reflexivity|]);
        repeat split; try discriminate; intros [H|H]; discriminate H.
    + destruct Hin as [Hin|[Hin|[]]]; [discriminate Hin|].
      injection Hin as <-. exists "Login", false.
      repeat split; auto.
    + destruct Hin as [Hin|[]]. discriminate Hin.
    + destruct Hin as [Hin|[Hin|[]]]; [discriminate Hin|].
      injection Hin as <-.
      apply andb_prop in Hoff as [_ Hoff].
      apply bool_decide_eq_true in Hoff.
      repeat (apply elem_of_cons in Hoff as [->|Hoff]);
        [| | | | |now apply elem_of_nil in Hoff];
        eexists _, true; (split; [reflexivity|]);
        repeat split; try discriminate; intros [H|H]; discriminate H.
    + destruct Hin as [Hin|[Hin|[Hin|[]]]]; try discriminate Hin.
      injection Hin as <-. exists "Login", false.
      repeat split; auto.
  - exists "/dashboard", "Dashboard". split; reflexivity.
Qed.

Lemma navbar_targets_are_routes_witness :
  Navbar.offered true true (Navbar.click_menuLink "/saved-jobs") = true /\
  In (Navbar.navigate "/saved-jobs")
    (Navbar.handle true (Navbar.click_menuLink "/saved-jobs")) /\
  routeOf "/saved-jobs" = Some (element "SavedJobs" true).
Proof.
  assert (H1 : Navbar.offered true true (Navbar.click_menuLink "/saved-jobs")
               = true) by reflexivity.
  assert (H2 : In (Navbar.navigate "/saved-jobs")
                 (Navbar.handle true (Navbar.click_menuLink "/saved-jobs")))
    by (right; left; reflexivity).
  split; [exact H1|]. split; [exact H2|].
  destruct (proj1 (navbar_targets_are_routes true _ _ H1 H2))
    as (c & p & Hr & _).
  reflexivity.
Defined.
